(** * tfutils: the Tracab TF05 document accessors and the heatmap decoder

    A shallow embedding of [tfutils.py] (class [TracabTf05Xml]) together with
    the parts of the Python runtime it relies on, as CPython 3.11 has them:
    [str] as a sequence of code points, [int()] on one character, [str()] on
    an [int], [float()] and [/] on IEEE binary64, [numpy.reshape], and the
    [xml.etree] element lookups ([Element.get], [Element.find] and the path
    language of [ElementPath], into which [get_player] pastes its argument).

    Layout: the Python values and builtins ([Py]), numpy ([np]), the element
    tree and its path language ([ElementTree], [ElementPath], [Element]), the
    class itself ([TracabTf05Xml]), the resolution order in the words of the
    specification ([Resolution]), the fixture documents ([Fixtures]), and
    then the lemmas and the properties of the specification. *)

From Stdlib Require Import String Ascii ZArith NArith Bool Lia List.
From Stdlib Require Import DecimalString.
From Stdlib Require Import Floats.SpecFloat.
Import ListNotations.

(** ** Python values and builtins *)

Module Py.

(** A Python [str] is a sequence of Unicode code points. *)
Definition str := list N.

(** The [str] written as an ASCII literal in the source. *)
Definition lit (s : string) : str :=
  map N_of_ascii (list_ascii_of_string s).

Fixpoint str_eqb (a b : str) : bool :=
  match a, b with
  | [], [] => true
  | x :: a', y :: b' => N.eqb x y && str_eqb a' b'
  | _, _ => false
  end.

(** [x in xs] for a list of strings. *)
Definition str_in (x : str) (xs : list str) : bool :=
  existsb (str_eqb x) xs.

(** [a == b] where either side may be [None]. *)
Definition opt_str_eqb (a b : option str) : bool :=
  match a, b with
  | Some x, Some y => str_eqb x y
  | None, None => true
  | _, _ => false
  end.

(** The exception classes that the modelled code can raise. *)
Inductive exception : Type :=
| ValueError
| TypeError
| AttributeError
| KeyError
| SyntaxError.

(** The result of a call: a value, or a raised exception with its message
    when the message is a literal of the source ([None] for the messages
    the interpreter composes), or [Unsupported] when the call leaves the
    part of the runtime that is modelled here (path syntax beyond child
    steps and attribute predicates; [float()] of anything but a plain
    decimal integer literal). *)
Inductive outcome (A : Type) : Type :=
| Ret (a : A)
| Raise (e : exception) (msg : option str)
| Unsupported.

Arguments Ret {A} a.
Arguments Raise {A} e msg.
Arguments Unsupported {A}.

Definition bind {A B : Type} (c : outcome A) (k : A -> outcome B) : outcome B :=
  match c with
  | Ret a => k a
  | Raise e m => Raise e m
  | Unsupported => Unsupported
  end.

(** A call that raises an exception. *)
Definition raises {A : Type} (r : outcome A) : Prop :=
  exists e m, r = Raise e m.

(** A call that stays within the modelled part of the runtime: it returns
    or it raises. *)
Definition modelled {A : Type} (r : outcome A) : Prop :=
  (exists a, r = Ret a) \/ raises r.

(** A [dict] from strings to strings, in insertion order. *)
Definition dict := list (str * str).

(** [d.get(key)] *)
Fixpoint dict_get (d : dict) (key : str) : option str :=
  match d with
  | [] => None
  | (k, v) :: r => if str_eqb k key then Some v else dict_get r key
  end.

(** [d.keys()] *)
Definition keys (d : dict) : list str := map fst d.

(** [d[key]] *)
Definition getitem (d : dict) (key : str) : outcome str :=
  match dict_get d key with
  | Some v => Ret v
  | None => Raise KeyError None
  end.

(** The code points of the digit zero of every run of Unicode decimal
    digits (general category Nd, Unicode 14.0 as shipped with CPython
    3.11); each run is ten consecutive code points, zero to nine. *)
Definition decimal_zeros : list N :=
  [ 0x30; 0x660; 0x6f0; 0x7c0; 0x966; 0x9e6; 0xa66; 0xae6; 0xb66; 0xbe6;
    0xc66; 0xce6; 0xd66; 0xde6; 0xe50; 0xed0; 0xf20; 0x1040; 0x1090;
    0x17e0; 0x1810; 0x1946; 0x19d0; 0x1a80; 0x1a90; 0x1b50; 0x1bb0;
    0x1c40; 0x1c50; 0xa620; 0xa8d0; 0xa900; 0xa9d0; 0xa9f0; 0xaa50;
    0xabf0; 0xff10; 0x104a0; 0x10d30; 0x11066; 0x110f0; 0x11136;
    0x111d0; 0x112f0; 0x11450; 0x114d0; 0x11650; 0x116c0; 0x11730;
    0x118e0; 0x11950; 0x11c50; 0x11d50; 0x11da0; 0x16a60; 0x16ac0;
    0x16b50; 0x1d7ce; 0x1d7d8; 0x1d7e2; 0x1d7ec; 0x1d7f6; 0x1e140;
    0x1e2f0; 0x1e950; 0x1fbf0 ]%N.

Definition in_run (c z : N) : bool := (z <=? c)%N && (c <? z + 10)%N.

(** The decimal value of a character, when it is a decimal digit. *)
Definition decimal_value (c : N) : option Z :=
  match find (in_run c) decimal_zeros with
  | Some z => Some (Z.of_N (c - z))
  | None => None
  end.

(** [int(c)] for a string [c] of one character. *)
Definition int_char (c : N) : outcome Z :=
  match decimal_value c with
  | Some d => Ret d
  | None => Raise ValueError None
  end.

(** [[int(c) for c in s]]: left to right, the first failure is raised. *)
Fixpoint int_each (s : str) : outcome (list Z) :=
  match s with
  | [] => Ret []
  | c :: r =>
      bind (int_char c) (fun d =>
      bind (int_each r) (fun ds => Ret (d :: ds)))
  end.

(** [str(n)] for an [int]. *)
Definition str_of_int (n : Z) : str :=
  lit (NilZero.string_of_int (Z.to_int n)).

(** [sep.join(xs)]. *)
Fixpoint join (sep : str) (xs : list str) : str :=
  match xs with
  | [] => []
  | [x] => x
  | x :: r => x ++ sep ++ join sep r
  end.

(** A value interpolated by [format] or an f-string: [None] prints as
    the word None. *)
Definition fmt (v : option str) : str :=
  match v with
  | Some s => s
  | None => lit "None"
  end.

(** The characters on which [str.isspace] holds, which are also the ones
    that [\s] matches in a [str] pattern. *)
Definition isspace (c : N) : bool :=
  existsb (N.eqb c)
    [ 0x9; 0xa; 0xb; 0xc; 0xd; 0x1c; 0x1d; 0x1e; 0x1f; 0x20; 0x85; 0xa0;
      0x1680; 0x2000; 0x2001; 0x2002; 0x2003; 0x2004; 0x2005; 0x2006;
      0x2007; 0x2008; 0x2009; 0x200a; 0x2028; 0x2029; 0x202f; 0x205f;
      0x3000 ]%N.

(** IEEE binary64, the Python [float]. *)
Definition float := spec_float.
Definition prec : Z := 53.
Definition emax : Z := 1024.

(** The [float] nearest to an integer. *)
Definition float_of_Z (n : Z) : float :=
  binary_normalize prec emax n 0 false.

Definition is_ascii_digit (c : N) : bool := (48 <=? c)%N && (c <=? 57)%N.

(** The value of a string of ASCII digits, read in base ten. *)
Definition digits_value (s : str) : Z :=
  fold_left (fun acc c => 10 * acc + (Z.of_N c - 48))%Z s 0%Z.

(** [float(v)]: [None] is a [TypeError]; a non-empty string of ASCII
    digits is the nearest [float]; the other literal forms that [float]
    reads (sign, fraction, exponent, blanks, inf, nan) and the strings it
    rejects are not modelled. *)
Definition float_of (v : option str) : outcome float :=
  match v with
  | None => Raise TypeError None
  | Some [] => Raise ValueError None
  | Some s =>
      if forallb is_ascii_digit s then Ret (float_of_Z (digits_value s))
      else Unsupported
  end.

(** [x / n] for a [float] [x] and a non-zero [int] literal [n]. *)
Definition truediv (x : float) (n : Z) : float :=
  SFdiv prec emax x (float_of_Z n).

End Py.

Export Py.

Notation "x <- c ;; k" := (bind c (fun x => k))
  (at level 61, c at next level, right associativity).

(** ** numpy *)

Module np.

(** A two-dimensional integer array, row by row. *)
Definition array := list (list Z).

Fixpoint rows_of (rows cols : nat) (xs : list Z) : array :=
  match rows with
  | O => []
  | S r => firstn cols xs :: rows_of r cols (skipn cols xs)
  end.

(** [np.array(xs).reshape(rows, cols)]: the elements in order, [cols] to
    a row; a [ValueError] when the size is not [rows * cols]. *)
Definition reshape (xs : list Z) (rows cols : nat) : outcome array :=
  if Nat.eqb (List.length xs) (rows * cols) then Ret (rows_of rows cols xs)
  else Raise ValueError None.

(** [a.flatten()]: the rows one after the other. *)
Definition flatten (a : array) : list Z := concat a.

(** [''.join(str(x) for x in cells)]: the cells written one after the
    other, each as its decimal digits. *)
Definition digits_text (cells : list Z) : str :=
  join [] (map str_of_int cells).

End np.

(** ** The element tree *)

Module ElementTree.

(** An element of the parsed document: its tag, its attributes and its
    child elements in document order. *)
#[warnings="-register-all"]
Inductive Element : Type :=
  mkElement { tag : str; attrib : dict; children : list Element }.

(** [elem.get(key)]: the attribute value, [None] when it is absent. *)
Definition get (elem : Element) (key : str) : option str :=
  dict_get (attrib elem) key.

End ElementTree.

Export ElementTree.

(** ** ElementPath: the path language behind [Element.find] *)

Module ElementPath.

(** A token is the pair of the two groups of the tokenizer's pattern. *)
Definition token := (str * str)%type.

(** The text before the first occurrence of [q] and the text after it. *)
Fixpoint upto (q : N) (s : str) : option (str * str) :=
  match s with
  | [] => None
  | c :: r =>
      if N.eqb c q then Some ([], r)
      else match upto q r with
           | Some (a, b) => Some (c :: a, b)
           | None => None
           end
  end.

(** The longest prefix of characters satisfying [p], and the rest. *)
Fixpoint span (p : N -> bool) (s : str) : str * str :=
  match s with
  | [] => ([], [])
  | c :: r =>
      if p c then let (a, b) := span p r in (c :: a, b) else ([], s)
  end.

(** What remains of [s] after the prefix [p]. *)
Fixpoint after_prefix (p s : str) : option str :=
  match p, s with
  | [], _ => Some s
  | x :: p', y :: s' => if N.eqb x y then after_prefix p' s' else None
  | _ :: _, [] => None
  end.

(** The first of the literals [ps] that [s] starts with. *)
Fixpoint first_literal (ps : list str) (s : str) : option (str * str) :=
  match ps with
  | [] => None
  | p :: ps' =>
      match after_prefix p s with
      | Some r => Some (p, r)
      | None => first_literal ps' s
      end
  end.

Definition quote : N := 39.
Definition dquote : N := 34.
Definition lbrace : N := 123.
Definition rbrace : N := 125.
Definition colon : N := 58.

(** The operators of the first group after the quoted strings, in the
    order the pattern tries them:
    [::|//?|\.\.|\(\)|!=|[/.*:\[\]\(\)@=]]. *)
Definition operators : list str :=
  map lit [ "::"; "//"; "/"; ".."; "()"; "!="; "."; "*"; ":"; "["; "]";
            "("; ")"; "@"; "=" ]%string.

(** The class [[^/\[\]\(\)@!=\s]] of the second group. *)
Definition name_char (c : N) : bool :=
  negb (existsb (N.eqb c) (lit "/[]()@!=")) && negb (isspace c).

(** A quoted string: an opening single or double quote, any characters
    other than that quote, and the closing quote. *)
Definition quoted (s : str) : option (token * str) :=
  match s with
  | [] => None
  | c :: r =>
      if N.eqb c quote || N.eqb c dquote then
        match upto c r with
        | Some (body, rest) => Some ((c :: body ++ [c], []), rest)
        | None => None
        end
      else None
  end.

(** [\{[^}]+\}[^/\[\]\(\)@!=\s]+]: a name qualified by a namespace. *)
Definition qualified_name (s : str) : option (token * str) :=
  match s with
  | [] => None
  | c :: r =>
      if N.eqb c lbrace then
        match upto rbrace r with
        | Some (x :: ns, rest) =>
            match span name_char rest with
            | (y :: name, rest') =>
                Some (([], c :: (x :: ns) ++ rbrace :: y :: name), rest')
            | ([], _) => None
            end
        | _ => None
        end
      else None
  end.

(** [[^/\[\]\(\)@!=\s]+] *)
Definition plain_name (s : str) : option (token * str) :=
  match span name_char s with
  | (y :: name, rest) => Some (([], y :: name), rest)
  | ([], _) => None
  end.

(** [\s+] *)
Definition blanks (s : str) : option (token * str) :=
  match span isspace s with
  | (_ :: _, rest) => Some (([], []), rest)
  | ([], _) => None
  end.

Definition or_else {A : Type} (a b : option A) : option A :=
  match a with
  | Some _ => a
  | None => b
  end.

(** One match of the pattern at the start of [s]: the alternatives in the
    order of the pattern. *)
Definition match_here (s : str) : option (token * str) :=
  or_else (quoted s)
 (or_else (match first_literal operators s with
           | Some (op, rest) => Some ((op, []), rest)
           | None => None
           end)
 (or_else (qualified_name s)
 (or_else (plain_name s)
          (blanks s)))).

(** [xpath_tokenizer_re.findall(pattern)]: the successive matches from
    left to right; a character at which nothing matches is skipped.
    Every match consumes at least one character, so the length of the
    pattern bounds the number of rounds. *)
Fixpoint findall_rounds (rounds : nat) (s : str) : list token :=
  match rounds with
  | O => []
  | S n =>
      match s with
      | [] => []
      | _ :: r =>
          match match_here s with
          | Some (t, rest) => t :: findall_rounds n rest
          | None => findall_rounds n r
          end
      end
  end.

Definition findall (pattern : str) : list token :=
  findall_rounds (List.length pattern) pattern.

(** [xpath_tokenizer(pattern)] without a namespace map: the tokens as
    they are produced; a name with a prefix ([:] inside, no leading [{])
    raises a [SyntaxError] when the consumer reaches it. *)
Fixpoint prefixes (ts : list token) : list (outcome token) :=
  match ts with
  | [] => []
  | (ttype, name) :: r =>
      match name with
      | c :: _ =>
          if negb (N.eqb c lbrace) && existsb (N.eqb colon) name
          then [Raise SyntaxError None]
          else Ret (ttype, name) :: prefixes r
      | [] => Ret (ttype, name) :: prefixes r
      end
  end.

Definition xpath_tokenizer (pattern : str) : list (outcome token) :=
  prefixes (findall pattern).

(** The compiled steps of a path that are modelled: a child step by tag
    ([prepare_child] on a tag without wildcard) and the three attribute
    predicates of [prepare_predicate]. *)
Inductive selector : Type :=
| child (name : str)
| attr_has (key : str)
| attr_eq (key value : str)
| attr_ne (key value : str).

(** [s[-n:]] *)
Definition last_chars (n : nat) (s : str) : str :=
  skipn (List.length s - n) s.

(** [_is_wildcard_tag]: [tag[:3] == '{*}' or tag[-2:] == '}*']. *)
Definition is_wildcard_tag (name : str) : bool :=
  str_eqb (firstn 3 name) (lit "{*}") || str_eqb (last_chars 2 name) (lit "}*").

Definition prepare_child (name : str) : outcome selector :=
  if is_wildcard_tag name then Unsupported
  else if str_eqb (firstn 2 name) (lit "{}") then Ret (child (skipn 2 name))
  else Ret (child name).

(** The loop of [prepare_predicate]: the tokens up to the closing
    bracket give the signature and the operands; blanks are dropped and a
    quoted string counts as a quote with its body. When the tokens run
    out before the bracket, [prepare_predicate] returns [None] in place of
    a selector, and calling it later is a [TypeError]. *)
Fixpoint read_predicate (ts : list (outcome token)) (signature : str)
    (predicate : list str) : outcome (str * list str * list (outcome token)) :=
  match ts with
  | [] => Raise TypeError None
  | Raise e m :: _ => Raise e m
  | Unsupported :: _ => Unsupported
  | Ret (ttype, name) :: r =>
      if str_eqb ttype (lit "]") then Ret (signature, predicate, r)
      else
        match ttype, name with
        | [], [] => read_predicate r signature predicate
        | c :: _, _ =>
            if N.eqb c quote || N.eqb c dquote
            then read_predicate r (signature ++ [quote])
                   (predicate ++ [removelast (tl ttype)])
            else read_predicate r (signature ++ ttype) (predicate ++ [name])
        | [], _ :: _ =>
            read_predicate r (signature ++ lit "-") (predicate ++ [name])
        end
  end.

(** The choice of the predicate by its signature. The signatures of the
    predicates on child tags, on text and on positions are not modelled. *)
Definition predicate_selector (signature : str) (predicate : list str)
    : outcome selector :=
  if str_eqb signature (lit "@-") then
    Ret (attr_has (nth 1 predicate []))
  else if str_eqb signature (lit "@-='") then
    Ret (attr_eq (nth 1 predicate []) (last predicate []))
  else if str_eqb signature (lit "@-!='") then
    Ret (attr_ne (nth 1 predicate []) (last predicate []))
  else if str_in signature
            (map lit [ "-"; ".='"; ".!='"; "-='"; "-!='"; "-()"; "-()-" ]%string)
  then Unsupported
  else Raise SyntaxError (Some (lit "invalid predicate")).

(** [ops[token[0]](next, token)]: the selector of one step and the tokens
    left after it. The steps [*], [.], [..] and [//] are not modelled; a
    token that is not in [ops] is a [KeyError]. *)
Definition prepare (tok : token) (ts : list (outcome token))
    : outcome (selector * list (outcome token)) :=
  let (ttype, name) := tok in
  if str_eqb ttype [] then
    sel <- prepare_child name ;; Ret (sel, ts)
  else if str_eqb ttype (lit "[") then
    p <- read_predicate ts [] [] ;;
    let '(signature, predicate, rest) := p in
    sel <- predicate_selector signature predicate ;; Ret (sel, rest)
  else if str_in ttype (map lit [ "*"; "."; ".."; "//" ]%string) then Unsupported
  else Raise KeyError None.

(** The loop of [iterfind] that compiles the path: one step, then the
    next token, skipping one [/] before it. *)
Fixpoint selectors (rounds : nat) (tok : token) (ts : list (outcome token))
    : outcome (list selector) :=
  match rounds with
  | O => Unsupported
  | S n =>
      step <- prepare tok ts ;;
      let (sel, rest) := step in
      match rest with
      | [] => Ret [sel]
      | Raise e m :: _ => Raise e m
      | Unsupported :: _ => Unsupported
      | Ret t :: rest' =>
          if str_eqb (fst t) (lit "/") then
            match rest' with
            | [] => Ret [sel]
            | Raise e m :: _ => Raise e m
            | Unsupported :: _ => Unsupported
            | Ret t' :: rest'' =>
                sels <- selectors n t' rest'' ;; Ret (sel :: sels)
            end
          else sels <- selectors n t rest' ;; Ret (sel :: sels)
      end
  end.

(** The selectors of a path, as [iterfind] compiles them. *)
Definition compile (path : str) : outcome (list selector) :=
  let path := if str_eqb (last_chars 1 path) (lit "/")
              then path ++ lit "*" else path in
  if str_eqb (firstn 1 path) (lit "/") then
    Raise SyntaxError (Some (lit "cannot use absolute path on element"))
  else
    match xpath_tokenizer path with
    | [] => Raise TypeError None
    | Raise e m :: _ => Raise e m
    | Unsupported :: _ => Unsupported
    | Ret t :: ts => selectors (S (List.length ts)) t ts
    end.

(** One selector applied to the elements selected so far. *)
Definition select (sel : selector) (result : list Element) : list Element :=
  match sel with
  | child name =>
      flat_map (fun elem => filter (fun e => str_eqb (tag e) name) (children elem))
               result
  | attr_has key =>
      filter (fun elem => match get elem key with Some _ => true | None => false end)
             result
  | attr_eq key value =>
      filter (fun elem => opt_str_eqb (get elem key) (Some value)) result
  | attr_ne key value =>
      filter (fun elem => match get elem key with
                          | Some v => negb (str_eqb v value)
                          | None => false
                          end)
             result
  end.

(** [iterfind(elem, path)] *)
Definition iterfind (elem : Element) (path : str) : outcome (list Element) :=
  sels <- compile path ;;
  Ret (fold_left (fun result sel => select sel result) sels [elem]).

(** [find(elem, path)]: the first element selected, or [None]. *)
Definition find (elem : Element) (path : str) : outcome (option Element) :=
  result <- iterfind elem path ;; Ret (hd_error result).

End ElementPath.

(** ** [Element.find] and [ElementTree.find] *)

Module Element.

(** [checkpath] of the accelerator: whether the path has a character of
    the path language outside braces, or starts with a wildcard
    namespace. *)
Fixpoint has_pathchar (check : bool) (s : str) : bool :=
  match s with
  | [] => false
  | c :: r =>
      if N.eqb c ElementPath.lbrace then has_pathchar false r
      else if N.eqb c ElementPath.rbrace then has_pathchar true r
      else if check && existsb (N.eqb c) (lit "/*[@.") then true
      else has_pathchar check r
  end.

Definition checkpath (path : str) : bool :=
  match path with
  | c0 :: c1 :: c2 :: _ =>
      (N.eqb c0 ElementPath.lbrace
       && (N.eqb c1 ElementPath.rbrace
           || (N.eqb c1 42 && N.eqb c2 ElementPath.rbrace)))
      || has_pathchar true path
  | _ => has_pathchar true path
  end.

(** [elem.find(path)]: a path goes to [ElementPath.find]; a plain tag is
    compared with the tags of the children, the first match is returned. *)
Definition find (elem : Element) (path : str) : outcome (option Element) :=
  if checkpath path then ElementPath.find elem path
  else Ret (List.find (fun e => str_eqb (tag e) path) (children elem)).

(** [elem.findall(path)]: a path goes to [ElementPath.findall], the list
    of what [iterfind] selects; for a plain tag, the children with that
    tag, in document order. *)
Definition findall (elem : Element) (path : str) : outcome (list Element) :=
  if checkpath path then ElementPath.iterfind elem path
  else Ret (filter (fun e => str_eqb (tag e) path) (children elem)).

End Element.

(** ** The class [TracabTf05Xml] *)

Module TracabTf05Xml.

(** The object: the root of the parsed tree ([None] before [parse]) and
    the match data behind the read-only properties. *)
Record instance : Type := mkInstance {
  tf05_fname : str;
  _root : option Element;
  match_id : option str;
  home_team_name : option str;
  home_team_id : option str;
  away_team_name : option str;
  away_team_id : option str;
  match_duration : option float;
  arena_name : option str;
  arena_id : option str;
  competition_name : option str;
  competition_id : option str;
  match_date : option str;
  season : option str;
  season_id : option str;
  sport_id : option str;
  sport_name : option str
}.

(** [__init__]: the file name is kept, the match data is set by [parse]. *)
Definition __init__ (tf05_fname : str) : instance :=
  mkInstance tf05_fname None None None None None None None None None None
             None None None None None None.

(** Heatmap dimensions according to the Tracab format. *)
Definition __HM_WIDTH : nat := 14.
Definition __HM_LENGTH : nat := 20.

(** Translators English <-> XML element tag. *)
Definition __team_heatmap_dict : dict :=
  [ (lit "overall", lit "sHeatmap");
    (lit "defence", lit "sDefenceHeatmap");
    (lit "midfield", lit "sMidfieldHeatmap");
    (lit "attack", lit "sAttackHeatmap") ].

Definition __possession_heatmap_dict : dict :=
  [ (lit "overall", lit "sHeatmap");
    (lit "first-half", lit "sFirstHalfHeatmap");
    (lit "second-half", lit "sSecondHalfHeatmap") ].

Definition __team_dict : dict :=
  [ (lit "home", lit "HomeTeam"); (lit "away", lit "AwayTeam") ].

(** [ElementTree.find(self, path)], inherited: the lookup starts at the
    root element; before [parse] there is no root. *)
Definition find (self : instance) (path : str) : outcome (option Element) :=
  let path := if str_eqb (firstn 1 path) (lit "/") then lit "." ++ path else path in
  match _root self with
  | None => Raise AttributeError None
  | Some root => Element.find root path
  end.

(** [node.find(path)] and [node.get(key)] on the result of an earlier
    lookup: on [None] the attribute access is an [AttributeError]. *)
Definition node_find (node : option Element) (path : str)
    : outcome (option Element) :=
  match node with
  | None => Raise AttributeError None
  | Some elem => Element.find elem path
  end.

Definition node_get (node : option Element) (key : str) : outcome (option str) :=
  match node with
  | None => Raise AttributeError None
  | Some elem => Ret (get elem key)
  end.

(** [parse]: [document] is the root element that [ElementTree.parse] has
    read from the file. The attributes are assigned one after the other,
    so an exception leaves the object with the ones assigned before it. *)
Definition parse (self : instance) (document : Element) : instance * outcome unit :=
  let self :=
    mkInstance (tf05_fname self) (Some document) (match_id self)
      (home_team_name self) (home_team_id self) (away_team_name self)
      (away_team_id self) (match_duration self) (arena_name self)
      (arena_id self) (competition_name self) (competition_id self)
      (match_date self) (season self) (season_id self) (sport_id self)
      (sport_name self) in
  match find self (lit "TracabDocument") with
  | Ret (Some match_info) =>
      let self :=
        mkInstance (tf05_fname self) (_root self)
          (get match_info (lit "iMatchId"))
          (get match_info (lit "sHomeTeamName"))
          (get match_info (lit "iHomeTeamId"))
          (get match_info (lit "sAwayTeamName"))
          (get match_info (lit "iAwayTeamId"))
          (match_duration self) (arena_name self) (arena_id self)
          (competition_name self) (competition_id self) (match_date self)
          (season self) (season_id self) (sport_id self) (sport_name self) in
      match float_of (get match_info (lit "iTotalGameTime")) with
      | Ret total =>
          (mkInstance (tf05_fname self) (_root self) (match_id self)
             (home_team_name self) (home_team_id self) (away_team_name self)
             (away_team_id self)
             (Some (truediv total 60000))
             (get match_info (lit "sArenaName"))
             (get match_info (lit "iArenaId"))
             (get match_info (lit "sCompetitionName"))
             (get match_info (lit "iCompetitionId"))
             (get match_info (lit "dtDate"))
             (get match_info (lit "sSeason"))
             (get match_info (lit "iSeasonId"))
             (get match_info (lit "iSportId"))
             (get match_info (lit "sSportName")),
           Ret tt)
      | Raise e m => (self, Raise e m)
      | Unsupported => (self, Unsupported)
      end
  | Ret None => (self, Raise AttributeError None)
  | Raise e m => (self, Raise e m)
  | Unsupported => (self, Unsupported)
  end.

(** [__make_heatmap_array]: the digits of the document's heatmap string
    as a [__HM_WIDTH] by [__HM_LENGTH] array. Iterating over [None] (an
    absent attribute) is a [TypeError]. *)
Definition __make_heatmap_array (hm_string : option str) : outcome np.array :=
  match hm_string with
  | None => Raise TypeError None
  | Some s =>
      digits <- int_each s ;;
      np.reshape digits __HM_WIDTH __HM_LENGTH
  end.

(** [get_team] *)
Definition get_team (self : instance) (team : str) : outcome (option Element) :=
  if str_in team [lit "home"; lit "away"] then
    path <- getitem __team_dict team ;; find self path
  else if opt_str_eqb (Some team) (home_team_name self) then
    path <- getitem __team_dict (lit "home") ;; find self path
  else if opt_str_eqb (Some team) (away_team_name self) then
    path <- getitem __team_dict (lit "away") ;; find self path
  else
    Raise ValueError
      (Some (lit "Invalid team argument: must be 'home', 'away', or the exact team name. Check your spelling")).

(** The possession statistics of [get_team_possession]. *)
Record possession : Type :=
  mkPossession { avg_possession_time : float; pct_possession : float }.

(** [get_team_possession] *)
Definition get_team_possession (self : instance) (team : str) : outcome possession :=
  this_team <- get_team self team ;;
  possession_stats <- node_find this_team (lit "PossessionData") ;;
  avg <- node_get possession_stats (lit "iAvgTimePerPossession") ;;
  avg <- float_of avg ;;
  pct <- node_get possession_stats (lit "fPossessionPercentage") ;;
  pct <- float_of pct ;;
  Ret (mkPossession (truediv avg 1000) pct).

(** What a plotting method hands to the rendering collaborator: the
    array that replaces the bin counts, the title, the possession figures
    printed under the title, the endnote, and whether a colorbar is
    added. The drawing itself (mplsoccer, matplotlib) is not modelled. *)
Record hm_params : Type := mkParams {
  statistic : np.array;
  title : str;
  subtitle : option possession;
  endnote : str;
  colorbar : bool
}.

(** [__plot_core_heatmap]: the heatmap array forcefully replaces the
    counts of the bins. *)
Definition __plot_core_heatmap (hm_array : np.array) : hm_params :=
  mkParams hm_array [] None [] false.

(** ['{} v. {}, {}'.format(home, away, date)], the text of [__add_endnote]. *)
Definition endnote_text (self : instance) : str :=
  fmt (home_team_name self) ++ lit " v. " ++ fmt (away_team_name self)
    ++ lit ", " ++ fmt (match_date self).

(** The name in the title: the team name for a role, else the argument. *)
Definition this_team_name (self : instance) (team : str) : str :=
  if str_eqb team (lit "home") then fmt (home_team_name self)
  else if str_eqb team (lit "away") then fmt (away_team_name self)
  else team.

(** The [ValueError] of an invalid heatmap type: the valid ones are the
    keys of the translator, joined in their order. *)
Definition invalid_heatmap_type {A : Type} (d : dict) (hm_type : str) : outcome A :=
  let valid_heatmaps := join (lit ", ") (keys d) in
  Raise ValueError
    (Some (lit "Invalid heatmap type: must be one of (" ++ valid_heatmaps
           ++ lit "), but provided " ++ hm_type)).

Definition invalid_possession {A : Type} (possession : str) : outcome A :=
  Raise ValueError
    (Some (lit "Inavlid possession type: must be one of ('in', 'out'), but provided "
           ++ possession)).

(** [team_heatmap] *)
Definition team_heatmap (self : instance) (team hm_type : str) (add_cbar : bool)
    : outcome hm_params :=
  this_team <- get_team self team ;;
  if negb (str_in hm_type (keys __team_heatmap_dict)) then
    invalid_heatmap_type __team_heatmap_dict hm_type
  else
    key <- getitem __team_heatmap_dict hm_type ;;
    hm_string <- node_get this_team key ;;
    hm_array <- __make_heatmap_array hm_string ;;
    let hm_params := __plot_core_heatmap hm_array in
    let title_text := this_team_name self team ++ lit " - " ++ hm_type in
    Ret (mkParams (statistic hm_params) title_text None (endnote_text self)
                  add_cbar).

(** The element of the possession data for ['in'] or ['out']. *)
Definition possession_data (summary_possession_stats : option Element)
    (possession : str) : outcome (option Element) :=
  if str_eqb possession (lit "in") then
    node_find summary_possession_stats (lit "OwnTeamPossession")
  else if str_eqb possession (lit "out") then
    node_find summary_possession_stats (lit "OpponentPossession")
  else invalid_possession possession.

Definition possession_string (possession : str) : outcome str :=
  if str_eqb possession (lit "in") then Ret (lit "in possession")
  else if str_eqb possession (lit "out") then Ret (lit "out of possession")
  else invalid_possession possession.

(** [team_possession_heatmap] *)
Definition team_possession_heatmap (self : instance)
    (team possession hm_type : str) (add_cbar : bool) : outcome hm_params :=
  this_team <- get_team self team ;;
  summary_possession_stats <- node_find this_team (lit "PossessionData") ;;
  possession_data <- possession_data summary_possession_stats possession ;;
  if negb (str_in hm_type (keys __possession_heatmap_dict)) then
    invalid_heatmap_type __possession_heatmap_dict hm_type
  else
    key <- getitem __possession_heatmap_dict hm_type ;;
    hm_string <- node_get possession_data key ;;
    hm_array <- __make_heatmap_array hm_string ;;
    let hm_params := __plot_core_heatmap hm_array in
    possession_string <- possession_string possession ;;
    let title_text :=
      this_team_name self team ++ lit " - " ++ possession_string
        ++ lit " - " ++ hm_type in
    subtitle <-
      (if str_eqb hm_type (lit "overall") then
         possession_stats <- get_team_possession self team ;;
         Ret (Some possession_stats)
       else Ret None) ;;
    Ret (mkParams (statistic hm_params) title_text subtitle
                  (endnote_text self) add_cbar).

(** [str(player)] for the [Union[str, int]] argument of [get_player]. *)
Definition str_of (player : str + Z) : str :=
  match player with
  | inl s => s
  | inr n => str_of_int n
  end.

(** [get_player] *)
Definition get_player (self : instance) (player : str + Z)
    : outcome (Element * option str) :=
  let player := str_of player in
  home_team <- find self (lit "HomeTeam") ;;
  away_team <- find self (lit "AwayTeam") ;;
  (* Try searching by player id first *)
  let query_by_id := lit "Player/[@iPlayerId='" ++ player ++ lit "']" in
  player_node <- node_find home_team query_by_id ;;
  player_team <- node_get home_team (lit "sTeamName") ;;
  found <-
    match player_node with
    | None =>
        player_node <- node_find away_team query_by_id ;;
        player_team <- node_get away_team (lit "sTeamName") ;;
        Ret (player_node, player_team)
    | Some _ => Ret (player_node, player_team)
    end ;;
  (* If still no result, try searching by name *)
  found <-
    match fst found with
    | None =>
        let query_by_name := lit "Player/[@sPlayerName='" ++ player ++ lit "']" in
        player_node <- node_find home_team query_by_name ;;
        player_team <- node_get home_team (lit "sTeamName") ;;
        match player_node with
        | None =>
            player_node <- node_find away_team query_by_name ;;
            player_team <- node_get away_team (lit "sTamName") ;;
            Ret (player_node, player_team)
        | Some _ => Ret (player_node, player_team)
        end
    | Some _ => Ret found
    end ;;
  (* If still not found, something's wrong *)
  match found with
  | (None, _) =>
      Raise ValueError
        (Some (lit "Player node not found. Check the player ID or player name you provided. Player names must be spelled exactly as they are in the document."))
  | (Some player_node, player_team) => Ret (player_node, player_team)
  end.

(** [player_possession_heatmap] *)
Definition player_possession_heatmap (self : instance) (player : str + Z)
    (possession hm_type : str) (add_cbar : bool) : outcome hm_params :=
  found <- get_player self player ;;
  let (this_player, player_team) := found in
  summary_possession_stats <- Element.find this_player (lit "PossessionData") ;;
  possession_data <- possession_data summary_possession_stats possession ;;
  if negb (str_in hm_type (keys __possession_heatmap_dict)) then
    invalid_heatmap_type __possession_heatmap_dict hm_type
  else
    key <- getitem __possession_heatmap_dict hm_type ;;
    hm_string <- node_get possession_data key ;;
    hm_array <- __make_heatmap_array hm_string ;;
    let hm_params := __plot_core_heatmap hm_array in
    possession_string <- possession_string possession ;;
    let player_name := get this_player (lit "sPlayerName") in
    let player_jersey := get this_player (lit "iJersey") in
    let title_text :=
      fmt player_name ++ lit " - " ++ fmt player_team ++ lit " #"
        ++ fmt player_jersey ++ lit " - " ++ possession_string ++ lit " - "
        ++ hm_type in
    Ret (mkParams (statistic hm_params) title_text None (endnote_text self)
                  add_cbar).

(** The dictionary of [get_team_players]: the ids, the jersey numbers and
    the names, one entry per player. *)
Record players : Type := mkPlayers {
  id : list (option str);
  jersey : list (option str);
  name : list (option str)
}.

(** [node.findall(path)] on the result of an earlier lookup. *)
Definition node_findall (node : option Element) (path : str)
    : outcome (list Element) :=
  match node with
  | None => Raise AttributeError None
  | Some elem => Element.findall elem path
  end.

(** The loop of [get_team_players]: each player appends one entry to each
    of the three lists. *)
Definition append_player (acc : players) (p : Element) : players :=
  mkPlayers (id acc ++ [get p (lit "iPlayerId")])
            (jersey acc ++ [get p (lit "iJersey")])
            (name acc ++ [get p (lit "sPlayerName")]).

(** [get_team_players] *)
Definition get_team_players (self : instance) (team : str) : outcome players :=
  this_team <- get_team self team ;;
  found <- node_findall this_team (lit "Player") ;;
  Ret (fold_left append_player found (mkPlayers [] [] [])).

(** [-1.0 * x] *)
Definition flip (x : float) : float :=
  SFmul prec emax (float_of_Z (-1)) x.

(** What [player_heatmap] hands to the renderer: the heatmap and the
    point of the average position. *)
Record player_params : Type := mkPlayerParams {
  heatmap : hm_params;
  scatter : float * float
}.

(** [player_heatmap] *)
Definition player_heatmap (self : instance) (player : str + Z) (add_cbar : bool)
    : outcome player_params :=
  found <- get_player self player ;;
  let (this_player, player_team) := found in
  x <- float_of (get this_player (lit "fAvgPosX")) ;;
  let avg_x := flip x in
  y <- float_of (get this_player (lit "fAvgPosY")) ;;
  let avg_y := flip y in
  let hm_string := get this_player (lit "sHeatmap") in
  hm_array <- __make_heatmap_array hm_string ;;
  let hm_params := __plot_core_heatmap hm_array in
  let player_name := get this_player (lit "sPlayerName") in
  let player_jersey := get this_player (lit "iJersey") in
  let title_text :=
    fmt player_name ++ lit " - " ++ fmt player_team ++ lit " #"
      ++ fmt player_jersey ++ lit " - overall" in
  Ret (mkPlayerParams
         (mkParams (statistic hm_params) title_text None (endnote_text self)
                   add_cbar)
         (avg_x, avg_y)).

(** *** The keyword arguments of the pitch

    The part of the object that [__plot_core_heatmap] uses to complete the
    keyword arguments of [mplsoccer.Pitch]: the three public attributes
    and the dictionary of the default arguments. *)

(** A value of a keyword argument. *)
Inductive value : Type :=
| VInt (n : Z)
| VFloat (x : float)
| VStr (s : str)
| VBool (b : bool).

Definition kwargs := list (str * value).

Record settings : Type := mkSettings {
  pitch_length : value;
  pitch_width : value;
  pitch_type : value;
  __default_pitch_kwargs : kwargs
}.


(** [key in d] *)
Definition has_key (d : kwargs) (key : str) : bool :=
  existsb (fun kv => str_eqb (fst kv) key) d.

(** [if key not in d: d[key] = v]: a new key goes to the end. *)
Definition fill (d : kwargs) (key : str) (v : value) : kwargs :=
  if has_key d key then d else d ++ [(key, v)].

(** The three completions of [__plot_core_heatmap], in its order. *)
Definition complete (s : settings) (d : kwargs) : kwargs :=
  fill (fill (fill d (lit "pitch_type") (pitch_type s))
             (lit "pitch_width") (pitch_width s))
       (lit "pitch_length") (pitch_length s).

(** The keyword arguments that [__plot_core_heatmap] passes to
    [mplsoccer.Pitch], with the two dictionaries it may have changed on
    the way. With [None] the dictionary completed is the dictionary of
    the defaults itself, which keeps the keys added; a dictionary of the
    caller is completed in place and the defaults stay as they are. *)
Definition pitch_arguments (s : settings) (pitch_kwargs : option kwargs)
    : settings * option kwargs * kwargs :=
  match pitch_kwargs with
  | None =>
      let d := complete s (__default_pitch_kwargs s) in
      (mkSettings (pitch_length s) (pitch_width s) (pitch_type s) d, None, d)
  | Some own =>
      let d := complete s own in
      (s, Some d, d)
  end.

(** [default_kwargs()['pitch_kwargs']]: the dictionary of the defaults
    itself. *)
Definition default_pitch_kwargs (s : settings) : kwargs :=
  __default_pitch_kwargs s.

(** An assignment to one of the public attributes. *)
Definition set_pitch_length (s : settings) (v : value) : settings :=
  mkSettings v (pitch_width s) (pitch_type s) (__default_pitch_kwargs s).

Definition set_pitch_width (s : settings) (v : value) : settings :=
  mkSettings (pitch_length s) v (pitch_type s) (__default_pitch_kwargs s).

Definition set_pitch_type (s : settings) (v : value) : settings :=
  mkSettings (pitch_length s) (pitch_width s) v (__default_pitch_kwargs s).

(** [d.get(key)] for keyword arguments. *)
Fixpoint kwarg (d : kwargs) (key : str) : option value :=
  match d with
  | [] => None
  | (k, v) :: r => if str_eqb k key then Some v else kwarg r key
  end.

End TracabTf05Xml.

(** ** The resolution order of the specification *)

Module Resolution.

(** An exact match: the first Player child of [team] whose attribute
    [key] is [value]. *)
Definition exact_match (team : Element) (key value : str) : option Element :=
  List.find (fun e => str_eqb (tag e) (lit "Player")
                      && opt_str_eqb (get e key) (Some value))
            (children team).

(** The four lookups. *)
Inductive lookup : Type :=
| home_by_id
| away_by_id
| home_by_name
| away_by_name.

(** Id in the home team, id in the away team, name in the home team, name
    in the away team: the first match wins. *)
Definition resolve_player (home away : Element) (selector : str)
    : option (Element * lookup) :=
  match exact_match home (lit "iPlayerId") selector with
  | Some p => Some (p, home_by_id)
  | None =>
      match exact_match away (lit "iPlayerId") selector with
      | Some p => Some (p, away_by_id)
      | None =>
          match exact_match home (lit "sPlayerName") selector with
          | Some p => Some (p, home_by_name)
          | None =>
              match exact_match away (lit "sPlayerName") selector with
              | Some p => Some (p, away_by_name)
              | None => None
              end
          end
      end
  end.

(** A selector without a single quote: a string that has none, or any
    [int]. *)
Definition plain_selector (player : str + Z) : Prop :=
  match player with
  | inl s => ~ In ElementPath.quote s
  | inr _ => True
  end.

(** What it means for [p] to match [selector] in [team]: a Player child
    of the team whose id or name is the selector. *)
Definition matches (team : Element) (selector : str) (p : Element) : Prop :=
  In p (children team) /\ tag p = lit "Player"
  /\ (get p (lit "iPlayerId") = Some selector
      \/ get p (lit "sPlayerName") = Some selector).

(** The words of the title for a possession that is in or out. *)
Definition possession_words (possession : str) : str :=
  if str_eqb possession (lit "in") then lit "in possession"
  else lit "out of possession".

End Resolution.

(** ** Fixture documents *)

Module Fixtures.

Import TracabTf05Xml.
Local Open Scope string_scope.

Definition attrs (a : list (string * string)) : dict :=
  map (fun kv => (lit (fst kv), lit (snd kv))) a.

Definition elem (name : string) (a : dict) (sub : list Element) : Element :=
  mkElement (lit name) a sub.

(** A heatmap string of 280 ASCII digits: row [r] starts at the digit
    [r mod 10] and counts upwards. *)
Definition cycle_heatmap : str :=
  map (fun i => (48 + N.of_nat ((i + i / 20) mod 10))%N) (seq 0 280).

Definition zero_heatmap : str := repeat 48%N 280.

(** 280 times ARABIC-INDIC DIGIT THREE, U+0663. *)
Definition arabic_heatmap : str := repeat 0x663%N 280.

(** 279 zeros and the letter x. *)
Definition letter_heatmap : str := (repeat 48%N 279 ++ [120%N])%list.

Definition possession_elem : Element :=
  elem "PossessionData"
    (attrs [ ("iAvgTimePerPossession", "12000"); ("fPossessionPercentage", "55") ])
    [ elem "OwnTeamPossession"
        ((lit "sHeatmap", zero_heatmap) :: (lit "sFirstHalfHeatmap", cycle_heatmap)
           :: (lit "sSecondHalfHeatmap", zero_heatmap) :: nil) [];
      elem "OpponentPossession"
        ((lit "sHeatmap", cycle_heatmap) :: (lit "sFirstHalfHeatmap", zero_heatmap)
           :: (lit "sSecondHalfHeatmap", zero_heatmap) :: nil) [] ].

Definition player (id name jersey : string) : Element :=
  elem "Player"
    (attrs [ ("iPlayerId", id); ("sPlayerName", name); ("iJersey", jersey);
             ("fAvgPosX", "0"); ("fAvgPosY", "0") ]
       ++ [ (lit "sHeatmap", zero_heatmap) ])%list
    [ possession_elem ].

Definition team (role name : string) (players : list Element) : Element :=
  elem role
    (attrs [ ("sTeamName", name) ]
       ++ [ (lit "sHeatmap", cycle_heatmap); (lit "sDefenceHeatmap", zero_heatmap);
            (lit "sMidfieldHeatmap", zero_heatmap);
            (lit "sAttackHeatmap", zero_heatmap) ])%list
    (possession_elem :: players).

Definition match_attrs (home away : string) : list (string * string) :=
  [ ("iMatchId", "1001"); ("sHomeTeamName", home); ("iHomeTeamId", "1");
    ("sAwayTeamName", away); ("iAwayTeamId", "2");
    ("iTotalGameTime", "5700000"); ("sArenaName", "Riverside");
    ("iArenaId", "5"); ("sCompetitionName", "League"); ("iCompetitionId", "9");
    ("dtDate", "2021-05-18"); ("sSeason", "2021"); ("iSeasonId", "21");
    ("iSportId", "1"); ("sSportName", "Football") ].

(** The home player with id 77 and the away player whose name is 77. *)
Definition home_77 : Element := player "77" "Sean O'NEIL" "7".
Definition away_named_77 : Element := player "9" "77" "9".
Definition away_bob : Element := player "10" "Bob STONE" "10".

Definition home_team : Element := team "HomeTeam" "Rovers" [ home_77 ].
Definition away_team : Element :=
  team "AwayTeam" "Athletic" [ away_named_77; away_bob ].

Definition document : Element :=
  elem "Tracab" []
    [ elem "TracabDocument" (attrs (match_attrs "Rovers" "Athletic")) [];
      home_team; away_team ].

(** The same document with no arena name. *)
Definition document_no_arena : Element :=
  elem "Tracab" []
    [ elem "TracabDocument"
        (attrs (filter (fun kv => negb (String.eqb (fst kv) "sArenaName"))
                       (match_attrs "Rovers" "Athletic"))) [];
      home_team; away_team ].

(** A document in which both teams carry the same name. *)
Definition document_same_names : Element :=
  elem "Tracab" []
    [ elem "TracabDocument" (attrs (match_attrs "United" "United")) [];
      team "HomeTeam" "United" [ home_77 ];
      team "AwayTeam" "United" [ away_bob ] ].

(** Documents with one team element only. *)
Definition document_no_home : Element :=
  elem "Tracab" []
    [ elem "TracabDocument" (attrs (match_attrs "Rovers" "Athletic")) [];
      away_team ].

Definition document_no_away : Element :=
  elem "Tracab" []
    [ elem "TracabDocument" (attrs (match_attrs "Rovers" "Athletic")) [];
      home_team ].

(** A document of two other teams whose match data has no
    iTotalGameTime, and a document without match data. *)
Definition document_no_time : Element :=
  elem "Tracab" []
    [ elem "TracabDocument"
        (attrs (filter (fun kv => negb (String.eqb (fst kv) "iTotalGameTime"))
                       (match_attrs "United" "City"))) [];
      team "HomeTeam" "United" []; team "AwayTeam" "City" [] ].

Definition document_no_match_data : Element :=
  elem "Tracab" [] [ team "HomeTeam" "United" []; team "AwayTeam" "City" [] ].


(** The object after [parse] of a document. *)
Definition parsed (doc : Element) : instance :=
  fst (parse (__init__ (lit "match.xml")) doc).

Definition source : instance := parsed document.
Definition source_no_arena : instance := parsed document_no_arena.
Definition source_same_names : instance := parsed document_same_names.
Definition source_no_home : instance := parsed document_no_home.
Definition source_no_away : instance := parsed document_no_away.

End Fixtures.

(** * Properties *)

Import TracabTf05Xml.

(** ** Strings *)

Lemma str_eqb_refl (a : str) : str_eqb a a = true.
Proof.
  induction a as [|x a IH]; simpl; [reflexivity|].
  now rewrite N.eqb_refl, IH.
Qed.

Lemma str_eqb_eq (a b : str) : str_eqb a b = true <-> a = b.
Proof.
  split.
  - revert b; induction a as [|x a IH]; intros [|y b] H; simpl in H;
      try discriminate; [reflexivity|].
    apply andb_true_iff in H as [Hx Hr].
    apply N.eqb_eq in Hx. apply IH in Hr. now subst.
  - intros ->. apply str_eqb_refl.
Qed.

Lemma str_eqb_neq (a b : str) : str_eqb a b = false <-> a <> b.
Proof.
  split.
  - intros H E. apply str_eqb_eq in E. congruence.
  - intros H. destruct (str_eqb a b) eqn:E; [|reflexivity].
    apply str_eqb_eq in E. contradiction.
Qed.

Lemma str_in_In (x : str) (xs : list str) : str_in x xs = true <-> In x xs.
Proof.
  unfold str_in. rewrite existsb_exists. split.
  - intros [y [Hy E]]. apply str_eqb_eq in E. now subst.
  - intros H. exists x. split; [assumption | apply str_eqb_refl].
Qed.

(** ** [int()] on one character *)

Lemma decimal_value_ascii (c : N) :
  is_ascii_digit c = true -> decimal_value c = Some (Z.of_N c - 48)%Z.
Proof.
  unfold is_ascii_digit. intros H.
  apply andb_true_iff in H as [Hlo Hhi].
  apply N.leb_le in Hlo. apply N.leb_le in Hhi.
  assert (Hrun : in_run c 48 = true).
  { unfold in_run. apply andb_true_iff. split.
    - now apply N.leb_le.
    - apply N.ltb_lt. lia. }
  unfold decimal_value, decimal_zeros. cbn [List.find].
  rewrite Hrun. f_equal. lia.
Qed.

Lemma decimal_value_range (c : N) (d : Z) :
  decimal_value c = Some d -> (0 <= d <= 9)%Z.
Proof.
  unfold decimal_value.
  destruct (List.find (in_run c) decimal_zeros) as [z|] eqn:F; [|discriminate].
  apply find_some in F as [_ Hrun].
  unfold in_run in Hrun. apply andb_true_iff in Hrun as [Hlo Hhi].
  apply N.leb_le in Hlo. apply N.ltb_lt in Hhi.
  intros E. injection E as <-. lia.
Qed.

(** Below U+0080 the decimal digits are the ten ASCII digits. *)
Lemma decimal_value_ascii_only (c : N) :
  (c < 128)%N -> is_ascii_digit c = false -> decimal_value c = None.
Proof.
  intros Hc Hd. unfold decimal_value.
  assert (F : List.find (in_run c) decimal_zeros = None).
  { assert (Hall : forallb (fun z => N.eqb z 48 || (128 <=? z)%N) decimal_zeros = true)
      by (vm_compute; reflexivity).
    rewrite forallb_forall in Hall.
    destruct (List.find (in_run c) decimal_zeros) as [z|] eqn:F; [|reflexivity].
    apply find_some in F as [Hin Hrun].
    specialize (Hall z Hin).
    unfold in_run in Hrun. apply andb_true_iff in Hrun as [Hlo Hhi].
    apply N.leb_le in Hlo. apply N.ltb_lt in Hhi.
    apply orb_true_iff in Hall as [Hz | Hz].
    - apply N.eqb_eq in Hz. subst z.
      unfold is_ascii_digit in Hd. apply andb_false_iff in Hd as [Hd | Hd].
      + apply N.leb_gt in Hd. lia.
      + apply N.leb_gt in Hd. lia.
    - apply N.leb_le in Hz. lia. }
  now rewrite F.
Qed.

Lemma int_char_cases (c : N) :
  (exists d, decimal_value c = Some d /\ int_char c = Ret d)
  \/ (decimal_value c = None /\ int_char c = Raise ValueError None).
Proof.
  unfold int_char. destruct (decimal_value c) as [d|].
  - left. now exists d.
  - now right.
Qed.

(** The comprehension either converts every character or raises the
    [ValueError] of the first character that is not a digit. *)
Lemma int_each_cases (s : str) :
  (exists ds, int_each s = Ret ds
              /\ Forall2 (fun c d => decimal_value c = Some d) s ds)
  \/ (int_each s = Raise ValueError None
      /\ exists c, In c s /\ decimal_value c = None).
Proof.
  induction s as [|c s IH]; simpl.
  - left. exists []. split; [reflexivity | constructor].
  - destruct (int_char_cases c) as [[d [Hd ->]] | [Hn ->]]; simpl.
    + destruct IH as [[ds [-> Hall]] | [-> [c' [Hin Hc']]]]; simpl.
      * left. exists (d :: ds). split; [reflexivity | now constructor].
      * right. split; [reflexivity|]. exists c'. split; [now right | assumption].
    + right. split; [reflexivity|]. exists c. split; [now left | assumption].
Qed.

Lemma int_each_ascii (s : str) :
  forallb is_ascii_digit s = true ->
  int_each s = Ret (map (fun c => (Z.of_N c - 48)%Z) s).
Proof.
  induction s as [|c s IH]; simpl; intros H; [reflexivity|].
  apply andb_true_iff in H as [Hc Hs].
  unfold int_char. rewrite (decimal_value_ascii c Hc). simpl.
  now rewrite (IH Hs).
Qed.

(** ** [reshape] *)

Lemma rows_of_length (rows cols : nat) (xs : list Z) :
  List.length (np.rows_of rows cols xs) = rows.
Proof.
  revert xs; induction rows as [|r IH]; intros xs; simpl; [reflexivity|].
  now rewrite IH.
Qed.

Lemma rows_of_row_length (rows cols : nat) (xs : list Z) :
  List.length xs = rows * cols ->
  Forall (fun row => List.length row = cols) (np.rows_of rows cols xs).
Proof.
  revert xs; induction rows as [|r IH]; intros xs H; simpl; constructor.
  - rewrite length_firstn. simpl in H. lia.
  - apply IH. rewrite length_skipn. simpl in H. lia.
Qed.

Lemma rows_of_concat (rows cols : nat) (xs : list Z) :
  List.length xs = rows * cols -> concat (np.rows_of rows cols xs) = xs.
Proof.
  revert xs; induction rows as [|r IH]; intros xs H; simpl.
  - simpl in H. now destruct xs.
  - rewrite IH.
    + apply firstn_skipn.
    + rewrite length_skipn. simpl in H. lia.
Qed.

Lemma rows_of_nth (rows cols : nat) (xs : list Z) (r c : nat) :
  r < rows -> c < cols -> List.length xs = rows * cols ->
  nth c (nth r (np.rows_of rows cols xs) []) 0%Z = nth (cols * r + c) xs 0%Z.
Proof.
  revert xs r; induction rows as [|n IH]; intros xs r Hr Hc Hlen; [lia|].
  simpl. destruct r as [|r].
  - rewrite Nat.mul_0_r. simpl.
    rewrite <- (firstn_skipn cols xs) at 2.
    rewrite app_nth1; [reflexivity|].
    rewrite length_firstn. simpl in Hlen. lia.
  - rewrite IH; [| lia | assumption | rewrite length_skipn; simpl in Hlen; lia].
    rewrite <- (firstn_skipn cols xs) at 2.
    rewrite app_nth2; rewrite length_firstn; simpl in Hlen.
    + f_equal. rewrite Nat.min_l by nia. nia.
    + rewrite Nat.min_l by nia. nia.
Qed.

Lemma rows_of_cells (P : Z -> Prop) (rows cols : nat) (xs : list Z) :
  Forall P xs -> Forall (Forall P) (np.rows_of rows cols xs).
Proof.
  revert xs; induction rows as [|r IH]; intros xs H; simpl; constructor.
  - apply Forall_forall. intros x Hx.
    rewrite Forall_forall in H. apply H.
    rewrite <- (firstn_skipn cols xs). apply in_or_app. now left.
  - apply IH. apply Forall_forall. intros x Hx.
    rewrite Forall_forall in H. apply H.
    rewrite <- (firstn_skipn cols xs). apply in_or_app. now right.
Qed.

Lemma reshape_cases (xs : list Z) (rows cols : nat) :
  (List.length xs = rows * cols
   /\ np.reshape xs rows cols = Ret (np.rows_of rows cols xs))
  \/ (List.length xs <> rows * cols
      /\ np.reshape xs rows cols = Raise ValueError None).
Proof.
  unfold np.reshape.
  destruct (Nat.eqb (List.length xs) (rows * cols)) eqn:E.
  - left. apply Nat.eqb_eq in E. now split.
  - right. apply Nat.eqb_neq in E. now split.
Qed.

(** ** The heatmap decoder *)

(** The decoder on a string: the digits, then the reshape. *)
Lemma make_heatmap_array_cases (raw : str) :
  (exists ds,
      Forall2 (fun c d => decimal_value c = Some d) raw ds
      /\ __make_heatmap_array (Some raw) = np.reshape ds __HM_WIDTH __HM_LENGTH)
  \/ (__make_heatmap_array (Some raw) = Raise ValueError None
      /\ exists c, In c raw /\ decimal_value c = None).
Proof.
  unfold __make_heatmap_array.
  destruct (int_each_cases raw) as [[ds [-> Hall]] | [-> Hc]].
  - left. exists ds. now split.
  - now right.
Qed.

Lemma nth_ascii_digit (raw : str) (i : nat) :
  forallb is_ascii_digit raw = true -> i < List.length raw ->
  is_ascii_digit (nth i raw 0%N) = true.
Proof.
  intros Hall Hi. rewrite forallb_forall in Hall.
  apply Hall. now apply nth_In.
Qed.

Lemma make_heatmap_array_ascii (raw : str) :
  List.length raw = 280 -> forallb is_ascii_digit raw = true ->
  __make_heatmap_array (Some raw)
  = Ret (np.rows_of 14 20 (map (fun c => (Z.of_N c - 48)%Z) raw)).
Proof.
  intros Hlen Hall. unfold __make_heatmap_array.
  rewrite (int_each_ascii raw Hall). simpl bind.
  unfold np.reshape, __HM_WIDTH, __HM_LENGTH.
  rewrite length_map, Hlen. reflexivity.
Qed.

(** C1. A string of 280 ASCII digits decodes to a grid of 14 rows of 20
    cells, and the cell in row [r], column [c] is [int] of the character
    at position [20 * r + c] of the string. *)
Theorem decode_row_major (raw : str) :
  List.length raw = 280 ->
  forallb is_ascii_digit raw = true ->
  exists grid,
    __make_heatmap_array (Some raw) = Ret grid
    /\ List.length grid = 14
    /\ Forall (fun row => List.length row = 20) grid
    /\ forall r c, r < 14 -> c < 20 ->
         int_char (nth (20 * r + c) raw 0%N) = Ret (nth c (nth r grid []) 0%Z).
Proof.
  intros Hlen Hall.
  exists (np.rows_of 14 20 (map (fun c => (Z.of_N c - 48)%Z) raw)).
  assert (Hsize : List.length (map (fun c => (Z.of_N c - 48)%Z) raw) = 14 * 20)
    by (rewrite length_map; exact Hlen).
  split; [now apply make_heatmap_array_ascii|].
  split; [apply rows_of_length|].
  split; [now apply rows_of_row_length|].
  intros r c Hr Hc.
  rewrite rows_of_nth by assumption.
  assert (Hi : 20 * r + c < List.length raw) by lia.
  unfold int_char.
  rewrite (decimal_value_ascii _ (nth_ascii_digit raw _ Hall Hi)).
  f_equal.
  change 0%Z with ((fun c0 : N => (Z.of_N c0 - 48)%Z) 48%N).
  rewrite map_nth. f_equal. f_equal. now apply nth_indep.
Qed.

Lemma decode_row_major_witness :
  List.length Fixtures.cycle_heatmap = 280
  /\ forallb is_ascii_digit Fixtures.cycle_heatmap = true
  /\ exists grid,
       __make_heatmap_array (Some Fixtures.cycle_heatmap) = Ret grid
       /\ List.length grid = 14
       /\ Forall (fun row => List.length row = 20) grid
       /\ forall r c, r < 14 -> c < 20 ->
            int_char (nth (20 * r + c) Fixtures.cycle_heatmap 0%N)
            = Ret (nth c (nth r grid []) 0%Z).
Proof.
  split; [reflexivity|]. split; [reflexivity|].
  apply (decode_row_major Fixtures.cycle_heatmap); reflexivity.
Defined.

(** C10. Whenever the decoder returns a grid, the grid has 14 rows of 20
    cells and every cell is between 0 and 9. *)
Theorem decode_cells_in_range (hm_string : option str) (grid : np.array) :
  __make_heatmap_array hm_string = Ret grid ->
  List.length grid = 14
  /\ Forall (fun row => List.length row = 20) grid
  /\ Forall (Forall (fun x => (0 <= x <= 9)%Z)) grid.
Proof.
  destruct hm_string as [raw|]; [|discriminate].
  destruct (make_heatmap_array_cases raw) as [[ds [Hall ->]] | [-> _]];
    [|discriminate].
  destruct (reshape_cases ds __HM_WIDTH __HM_LENGTH) as [[Hlen ->] | [_ ->]];
    [|discriminate].
  intros H.
  assert (G : np.rows_of __HM_WIDTH __HM_LENGTH ds = grid) by congruence.
  subst grid. clear H.
  split; [apply rows_of_length|].
  split; [now apply rows_of_row_length|].
  apply rows_of_cells.
  clear Hlen. induction Hall as [|c d s ds' Hd _ IH]; constructor.
  - now apply (decimal_value_range c).
  - exact IH.
Qed.

Lemma decode_cells_in_range_witness :
  __make_heatmap_array (Some Fixtures.arabic_heatmap) = Ret (repeat (repeat 3%Z 20) 14)
  /\ List.length (repeat (repeat 3%Z 20) 14) = 14
  /\ Forall (fun row => List.length row = 20) (repeat (repeat 3%Z 20) 14)
  /\ Forall (Forall (fun x => (0 <= x <= 9)%Z)) (repeat (repeat 3%Z 20) 14).
Proof.
  split; [reflexivity|].
  apply (decode_cells_in_range (Some Fixtures.arabic_heatmap)). reflexivity.
Defined.

Lemma str_of_int_digit (c : N) :
  is_ascii_digit c = true -> str_of_int (Z.of_N c - 48) = [c].
Proof.
  unfold is_ascii_digit. intros H.
  apply andb_true_iff in H as [Hlo Hhi].
  apply N.leb_le in Hlo. apply N.leb_le in Hhi.
  assert (Hc : In c [48; 49; 50; 51; 52; 53; 54; 55; 56; 57]%N).
  { simpl. lia. }
  simpl in Hc.
  repeat (destruct Hc as [<- | Hc]; [reflexivity|]). contradiction.
Qed.

Lemma join_singletons (s : str) : join [] (map (fun c => [c]) s) = s.
Proof.
  induction s as [|c s IH]; [reflexivity|].
  cbn [map join]. destruct s as [|c' s]; [reflexivity|].
  cbn [map] in *. rewrite IH. reflexivity.
Qed.

(** C8. For a string of 280 ASCII digits, the cells of the decoded grid,
    flattened row by row and written as digits, are the string again. *)
Theorem decode_flatten_roundtrip (raw : str) :
  List.length raw = 280 ->
  forallb is_ascii_digit raw = true ->
  exists grid,
    __make_heatmap_array (Some raw) = Ret grid
    /\ np.digits_text (np.flatten grid) = raw.
Proof.
  intros Hlen Hall.
  exists (np.rows_of 14 20 (map (fun c => (Z.of_N c - 48)%Z) raw)).
  split; [now apply make_heatmap_array_ascii|].
  unfold np.flatten, np.digits_text.
  rewrite rows_of_concat by (rewrite length_map; exact Hlen).
  rewrite map_map.
  rewrite <- (join_singletons raw) at 2.
  f_equal. apply map_ext_in. intros c Hc.
  apply str_of_int_digit.
  rewrite forallb_forall in Hall. now apply Hall.
Qed.

Lemma decode_flatten_roundtrip_witness :
  List.length Fixtures.cycle_heatmap = 280
  /\ forallb is_ascii_digit Fixtures.cycle_heatmap = true
  /\ exists grid,
       __make_heatmap_array (Some Fixtures.cycle_heatmap) = Ret grid
       /\ np.digits_text (np.flatten grid) = Fixtures.cycle_heatmap.
Proof.
  split; [reflexivity|]. split; [reflexivity|].
  apply (decode_flatten_roundtrip Fixtures.cycle_heatmap); reflexivity.
Defined.

(** C5, as stated, fails: the 280 characters U+0663 are not ASCII digits,
    and the decoder returns the grid of threes. *)
Lemma decode_accepts_arabic_digits :
  List.length Fixtures.arabic_heatmap = 280
  /\ forallb (fun c => negb (is_ascii_digit c)) Fixtures.arabic_heatmap = true
  /\ __make_heatmap_array (Some Fixtures.arabic_heatmap)
     = Ret (repeat (repeat 3%Z 20) 14).
Proof. repeat split. Qed.

(** C5, amended. The decoder raises a [ValueError] and returns no grid
    when the length of the string is not 280, and when the string has a
    character that is not a decimal digit for [int]; every character
    below U+0080 other than the ASCII digits is such a character. *)
Theorem decode_rejects (raw : str) :
  (List.length raw <> 280
   \/ exists c, In c raw
        /\ (decimal_value c = None \/ ((c < 128)%N /\ is_ascii_digit c = false))) ->
  __make_heatmap_array (Some raw) = Raise ValueError None.
Proof.
  intros H.
  destruct (make_heatmap_array_cases raw) as [[ds [Hall ->]] | [-> _]];
    [|reflexivity].
  destruct H as [Hlen | [c [Hin Hc]]].
  - destruct (reshape_cases ds __HM_WIDTH __HM_LENGTH) as [[Hds _] | [_ ->]];
      [|reflexivity].
    exfalso. apply Hlen. rewrite (Forall2_length Hall). exact Hds.
  - exfalso.
    assert (Hnone : decimal_value c = None).
    { destruct Hc as [Hc | [Hlt Hd]]; [assumption|].
      now apply decimal_value_ascii_only. }
    clear Hc. induction Hall as [|x d s ds' Hd _ IH]; [contradiction|].
    destruct Hin as [<- | Hin]; [congruence | now apply IH].
Qed.

Lemma decode_rejects_witness :
  (List.length Fixtures.letter_heatmap <> 280
   \/ exists c, In c Fixtures.letter_heatmap
        /\ (decimal_value c = None \/ ((c < 128)%N /\ is_ascii_digit c = false)))
  /\ __make_heatmap_array (Some Fixtures.letter_heatmap) = Raise ValueError None.
Proof.
  assert (H : List.length Fixtures.letter_heatmap <> 280
   \/ exists c, In c Fixtures.letter_heatmap
        /\ (decimal_value c = None \/ ((c < 128)%N /\ is_ascii_digit c = false))).
  { right. exists 120%N. split.
    - apply in_or_app. right. left. reflexivity.
    - right. split; reflexivity. }
  split; [exact H | exact (decode_rejects Fixtures.letter_heatmap H)].
Defined.

(** ** Lookups by a plain tag *)

Lemma opt_str_eqb_Some (a : str) (o : option str) :
  opt_str_eqb (Some a) o = true <-> o = Some a.
Proof.
  destruct o as [b|]; simpl.
  - rewrite str_eqb_eq. split; congruence.
  - split; discriminate.
Qed.

Lemma opt_str_eqb_Some_false (a : str) (o : option str) :
  opt_str_eqb (Some a) o = false <-> o <> Some a.
Proof.
  rewrite <- opt_str_eqb_Some. destruct (opt_str_eqb (Some a) o); split;
    congruence.
Qed.

(** A path without a character of the path language is a tag: the first
    child with that tag, and never an exception. *)
Lemma find_plain_tag (elem : Element) (path : str) :
  Element.checkpath path = false ->
  Element.find elem path
  = Ret (List.find (fun e => str_eqb (tag e) path) (children elem)).
Proof. intros H. unfold Element.find. now rewrite H. Qed.

Lemma find_plain_tag_cases (elem : Element) (path : str) :
  Element.checkpath path = false ->
  exists node, Element.find elem path = Ret node.
Proof. intros H. rewrite (find_plain_tag elem path H). eauto. Qed.

(** ** Team resolution *)

Lemma str_in_roles (team : str) :
  str_in team [lit "home"; lit "away"] = false
  <-> team <> lit "home" /\ team <> lit "away".
Proof.
  unfold str_in. cbn [existsb]. rewrite orb_false_r, orb_false_iff.
  now rewrite !str_eqb_neq.
Qed.

Lemma get_team_role (self : instance) (team : str) :
  In team [lit "home"; lit "away"] ->
  get_team self team
  = (path <- getitem __team_dict team ;; find self path).
Proof.
  intros H. unfold get_team.
  now rewrite (proj2 (str_in_In team _) H).
Qed.

Lemma get_team_home_name (self : instance) (team : str) :
  team <> lit "home" -> team <> lit "away" ->
  home_team_name self = Some team ->
  get_team self team = find self (lit "HomeTeam").
Proof.
  intros Hh Ha Hname. unfold get_team.
  rewrite (proj2 (str_in_roles team) (conj Hh Ha)).
  rewrite (proj2 (opt_str_eqb_Some team _) Hname). reflexivity.
Qed.

Lemma get_team_away_name (self : instance) (team : str) :
  team <> lit "home" -> team <> lit "away" ->
  home_team_name self <> Some team -> away_team_name self = Some team ->
  get_team self team = find self (lit "AwayTeam").
Proof.
  intros Hh Ha Hhome Haway. unfold get_team.
  rewrite (proj2 (str_in_roles team) (conj Hh Ha)).
  rewrite (proj2 (opt_str_eqb_Some_false team _) Hhome).
  rewrite (proj2 (opt_str_eqb_Some team _) Haway). reflexivity.
Qed.

Lemma get_team_invalid (self : instance) (team : str) :
  team <> lit "home" -> team <> lit "away" ->
  home_team_name self <> Some team -> away_team_name self <> Some team ->
  get_team self team
  = Raise ValueError
      (Some (lit "Invalid team argument: must be 'home', 'away', or the exact team name. Check your spelling")).
Proof.
  intros Hh Ha Hhome Haway. unfold get_team.
  rewrite (proj2 (str_in_roles team) (conj Hh Ha)).
  rewrite (proj2 (opt_str_eqb_Some_false team _) Hhome).
  rewrite (proj2 (opt_str_eqb_Some_false team _) Haway).
  reflexivity.
Qed.

(** C4. Team resolution: the role tags come first, then the exact name of
    the home team, then the exact name of the away team; any other
    selector raises the [ValueError] whose message begins with
    Invalid team argument, and nothing is returned. *)
Theorem get_team_precedence (self : instance) (team : str) :
  (team = lit "home" -> get_team self team = find self (lit "HomeTeam"))
  /\ (team = lit "away" -> get_team self team = find self (lit "AwayTeam"))
  /\ (team <> lit "home" -> team <> lit "away" ->
      home_team_name self = Some team ->
      get_team self team = find self (lit "HomeTeam"))
  /\ (team <> lit "home" -> team <> lit "away" ->
      home_team_name self <> Some team -> away_team_name self = Some team ->
      get_team self team = find self (lit "AwayTeam"))
  /\ (team <> lit "home" -> team <> lit "away" ->
      home_team_name self <> Some team -> away_team_name self <> Some team ->
      exists rest,
        get_team self team
        = Raise ValueError (Some (lit "Invalid team argument" ++ rest))).
Proof.
  repeat split.
  - intros ->. reflexivity.
  - intros ->. reflexivity.
  - apply get_team_home_name.
  - apply get_team_away_name.
  - intros Hh Ha Hhome Haway.
    rewrite (get_team_invalid self team Hh Ha Hhome Haway).
    eexists. reflexivity.
Qed.

Lemma get_team_precedence_witness :
  get_team Fixtures.source (lit "home") = find Fixtures.source (lit "HomeTeam")
  /\ get_team Fixtures.source (lit "Athletic") = find Fixtures.source (lit "AwayTeam")
  /\ exists rest,
       get_team Fixtures.source (lit "visitors")
       = Raise ValueError (Some (lit "Invalid team argument" ++ rest)).
Proof.
  split; [|split].
  - destruct (get_team_precedence Fixtures.source (lit "home")) as (H & _).
    apply H. reflexivity.
  - destruct (get_team_precedence Fixtures.source (lit "Athletic"))
      as (_ & _ & _ & H & _).
    apply H; [discriminate | discriminate | discriminate | reflexivity].
  - destruct (get_team_precedence Fixtures.source (lit "visitors"))
      as (_ & _ & _ & _ & H).
    apply H; discriminate.
Defined.

(** C9, as stated, fails: when both teams carry the same name, the name
    resolves to the home team element and the role tag away to the away
    team element. *)
Lemma same_name_resolves_to_home :
  away_team_name Fixtures.source_same_names = Some (lit "United")
  /\ get_team Fixtures.source_same_names (lit "United")
     = find Fixtures.source_same_names (lit "HomeTeam")
  /\ get_team Fixtures.source_same_names (lit "away")
     = find Fixtures.source_same_names (lit "AwayTeam")
  /\ get_team Fixtures.source_same_names (lit "United")
     <> get_team Fixtures.source_same_names (lit "away").
Proof.
  split; [reflexivity|]. split; [reflexivity|]. split; [reflexivity|].
  vm_compute. discriminate.
Qed.

(** C9, amended. The role tag home and the exact home-team name resolve
    to the same element unless that name is the word away; the role tag
    away and the exact away-team name resolve to the same element unless
    that name is the word home or is also the home-team name. *)
Theorem get_team_role_and_name (self : instance) (name : str) :
  (home_team_name self = Some name -> name <> lit "away" ->
   get_team self name = get_team self (lit "home"))
  /\ (away_team_name self = Some name -> name <> lit "home" ->
      home_team_name self <> Some name ->
      get_team self name = get_team self (lit "away")).
Proof.
  split.
  - intros Hname Haway.
    destruct (list_eq_dec N.eq_dec name (lit "home")) as [-> | Hhome];
      [reflexivity|].
    now rewrite get_team_home_name.
  - intros Hname Hhome Hother.
    destruct (list_eq_dec N.eq_dec name (lit "away")) as [-> | Haway];
      [reflexivity|].
    now rewrite get_team_away_name.
Qed.

Lemma get_team_role_and_name_witness :
  get_team Fixtures.source (lit "Rovers") = get_team Fixtures.source (lit "home")
  /\ get_team Fixtures.source (lit "Athletic")
     = get_team Fixtures.source (lit "away").
Proof.
  split.
  - destruct (get_team_role_and_name Fixtures.source (lit "Rovers")) as (H & _).
    apply H; [reflexivity | discriminate].
  - destruct (get_team_role_and_name Fixtures.source (lit "Athletic"))
      as (_ & H).
    apply H; [reflexivity | discriminate | discriminate].
Defined.

(** ** Match data *)

Lemma find_TracabDocument (self : instance) (document : Element) :
  find (mkInstance (tf05_fname self) (Some document) (match_id self)
          (home_team_name self) (home_team_id self) (away_team_name self)
          (away_team_id self) (match_duration self) (arena_name self)
          (arena_id self) (competition_name self) (competition_id self)
          (match_date self) (season self) (season_id self) (sport_id self)
          (sport_name self))
       (lit "TracabDocument")
  = Element.find document (lit "TracabDocument").
Proof. reflexivity. Qed.

(** C7, as stated, fails: in this document the arena name is absent, and
    [parse] returns normally with [None] as the arena name and the other
    fields set. *)
Lemma parse_without_arena_name :
  (exists match_info,
      Element.find Fixtures.document_no_arena (lit "TracabDocument")
      = Ret (Some match_info)
      /\ get match_info (lit "sArenaName") = None)
  /\ snd (parse (__init__ (lit "match.xml")) Fixtures.document_no_arena) = Ret tt
  /\ arena_name Fixtures.source_no_arena = None
  /\ arena_id Fixtures.source_no_arena = Some (lit "5")
  /\ match_duration Fixtures.source_no_arena = Some (float_of_Z 95).
Proof.
  split; [eexists; split; reflexivity|].
  repeat split.
Qed.

(** C7, amended. [parse] checks no attribute: it raises an
    [AttributeError] when the document has no TracabDocument element and
    a [TypeError] when iTotalGameTime is absent; when iTotalGameTime is
    read as a number, [parse] returns, every field is what [get] gives
    for its attribute ([None] when the attribute is absent), and the
    duration is that number divided by 60000. *)
Theorem parse_match_info (self : instance) (document : Element) :
  (Element.find document (lit "TracabDocument") = Ret None ->
   snd (parse self document) = Raise AttributeError None)
  /\ (forall match_info,
       Element.find document (lit "TracabDocument") = Ret (Some match_info) ->
       (get match_info (lit "iTotalGameTime") = None ->
        snd (parse self document) = Raise TypeError None)
       /\ (forall total,
            float_of (get match_info (lit "iTotalGameTime")) = Ret total ->
            snd (parse self document) = Ret tt
            /\ fst (parse self document)
               = mkInstance (tf05_fname self) (Some document)
                   (get match_info (lit "iMatchId"))
                   (get match_info (lit "sHomeTeamName"))
                   (get match_info (lit "iHomeTeamId"))
                   (get match_info (lit "sAwayTeamName"))
                   (get match_info (lit "iAwayTeamId"))
                   (Some (truediv total 60000))
                   (get match_info (lit "sArenaName"))
                   (get match_info (lit "iArenaId"))
                   (get match_info (lit "sCompetitionName"))
                   (get match_info (lit "iCompetitionId"))
                   (get match_info (lit "dtDate"))
                   (get match_info (lit "sSeason"))
                   (get match_info (lit "iSeasonId"))
                   (get match_info (lit "iSportId"))
                   (get match_info (lit "sSportName")))
       /\ (forall raw,
            get match_info (lit "iTotalGameTime") = Some raw ->
            raw <> [] -> forallb is_ascii_digit raw = true ->
            match_duration (fst (parse self document))
            = Some (truediv (float_of_Z (digits_value raw)) 60000))).
Proof.
  split.
  - intros H. unfold parse. rewrite find_TracabDocument, H. reflexivity.
  - intros match_info H. split; [|split].
    + intros Hnone. unfold parse. rewrite find_TracabDocument, H.
      cbv iota beta. rewrite Hnone. reflexivity.
    + intros total Htotal. unfold parse. rewrite find_TracabDocument, H.
      cbv iota beta. rewrite Htotal. split; reflexivity.
    + intros raw Hraw Hne Hdigits. unfold parse.
      rewrite find_TracabDocument, H. cbv iota beta. rewrite Hraw.
      unfold float_of. destruct raw as [|c raw]; [contradiction|].
      rewrite Hdigits. reflexivity.
Qed.

Lemma parse_match_info_witness :
  snd (parse (__init__ (lit "match.xml")) Fixtures.document) = Ret tt
  /\ home_team_name Fixtures.source = Some (lit "Rovers")
  /\ match_duration Fixtures.source = Some (truediv (float_of_Z 5700000) 60000).
Proof.
  destruct (parse_match_info (__init__ (lit "match.xml")) Fixtures.document)
    as (_ & H).
  destruct (H (Fixtures.elem "TracabDocument"
                 (Fixtures.attrs (Fixtures.match_attrs "Rovers" "Athletic")) [])
              eq_refl) as (_ & Hparse & Hraw).
  destruct (Hparse (float_of_Z 5700000) eq_refl) as (Hret & Hfields).
  split; [exact Hret|]. split.
  - unfold Fixtures.source, Fixtures.parsed. rewrite Hfields. reflexivity.
  - apply (Hraw (lit "5700000")); [reflexivity | discriminate | reflexivity].
Defined.

(** ** Heatmap types *)

Lemma raises_Raise {A : Type} (e : exception) (m : option str) :
  raises (@Raise A e m).
Proof. exists e, m. reflexivity. Qed.

Lemma raises_bind {A B : Type} (c : outcome A) (k : A -> outcome B) :
  modelled c -> (forall a, raises (k a)) -> raises (bind c k).
Proof.
  intros [[a ->] | (e & m & ->)] H; cbn [bind];
    [apply H | apply raises_Raise].
Qed.

(** The lookups by a plain tag stay within the model. *)
Lemma find_modelled (self : instance) (path : str) :
  str_eqb (firstn 1 path) (lit "/") = false ->
  Element.checkpath path = false ->
  modelled (find self path).
Proof.
  intros Hslash Hplain. unfold find. rewrite Hslash.
  destruct (_root self) as [root|].
  - left. now apply find_plain_tag_cases.
  - right. apply raises_Raise.
Qed.

Lemma node_find_modelled (node : option Element) (path : str) :
  Element.checkpath path = false -> modelled (node_find node path).
Proof.
  intros Hplain. destruct node as [elem|]; cbn [node_find].
  - left. now apply find_plain_tag_cases.
  - right. apply raises_Raise.
Qed.

Lemma get_team_modelled (self : instance) (team : str) :
  modelled (get_team self team).
Proof.
  unfold get_team.
  destruct (str_in team [lit "home"; lit "away"]) eqn:R.
  - apply str_in_In in R. destruct R as [<- | [<- | []]];
      now apply find_modelled.
  - destruct (opt_str_eqb (Some team) (home_team_name self));
      [now apply find_modelled|].
    destruct (opt_str_eqb (Some team) (away_team_name self));
      [now apply find_modelled|].
    right. apply raises_Raise.
Qed.

Lemma possession_data_modelled (stats : option Element) (possession : str) :
  modelled (possession_data stats possession).
Proof.
  unfold possession_data.
  destruct (str_eqb possession (lit "in")); [now apply node_find_modelled|].
  destruct (str_eqb possession (lit "out")); [now apply node_find_modelled|].
  right. apply raises_Raise.
Qed.

Lemma not_in_keys (hm_type : str) (d : dict) :
  ~ In hm_type (keys d) -> negb (str_in hm_type (keys d)) = true.
Proof.
  intros H. apply negb_true_iff.
  destruct (str_in hm_type (keys d)) eqn:E; [|reflexivity].
  apply str_in_In in E. contradiction.
Qed.

Lemma possession_data_valid (stats : Element) (possession : str) :
  In possession [lit "in"; lit "out"] ->
  exists node, possession_data (Some stats) possession = Ret node.
Proof.
  intros [<- | [<- | []]]; unfold possession_data; simpl node_find.
  - apply find_plain_tag_cases. reflexivity.
  - apply find_plain_tag_cases. reflexivity.
Qed.

(** With an invalid heatmap type, what follows the resolution of the
    player raises. *)
Lemma possession_heatmap_of_player_raises (self : instance)
    (found : Element * option str) (possession hm_type : str) (add_cbar : bool) :
  ~ In hm_type (keys __possession_heatmap_dict) ->
  forall player,
    get_player self player = Ret found ->
    raises (player_possession_heatmap self player possession hm_type add_cbar).
Proof.
  intros Hkind player Hplayer. unfold player_possession_heatmap.
  rewrite Hplayer. cbn [bind]. destruct found as [this_player player_team].
  apply raises_bind; [left; now apply find_plain_tag_cases|].
  intros stats.
  apply raises_bind; [apply possession_data_modelled|]. intros node.
  rewrite (not_in_keys hm_type _ Hkind). apply raises_Raise.
Qed.

Lemma team_heatmap_invalid_type (self : instance) (team hm_type : str)
    (add_cbar : bool) (this_team : option Element) :
  ~ In hm_type (keys __team_heatmap_dict) ->
  get_team self team = Ret this_team ->
  team_heatmap self team hm_type add_cbar
  = invalid_heatmap_type __team_heatmap_dict hm_type.
Proof.
  intros Hkind Hteam. unfold team_heatmap. rewrite Hteam. cbn [bind].
  now rewrite (not_in_keys hm_type _ Hkind).
Qed.

Lemma team_possession_heatmap_invalid_type (self : instance)
    (team possession hm_type : str) (add_cbar : bool)
    (this_team stats : Element) :
  ~ In hm_type (keys __possession_heatmap_dict) ->
  get_team self team = Ret (Some this_team) ->
  Element.find this_team (lit "PossessionData") = Ret (Some stats) ->
  In possession [lit "in"; lit "out"] ->
  team_possession_heatmap self team possession hm_type add_cbar
  = invalid_heatmap_type __possession_heatmap_dict hm_type.
Proof.
  intros Hkind Hteam Hstats Hposs. unfold team_possession_heatmap.
  rewrite Hteam. cbn [bind node_find]. rewrite Hstats. cbn [bind].
  destruct (possession_data_valid stats possession Hposs) as [node ->].
  cbn [bind]. now rewrite (not_in_keys hm_type _ Hkind).
Qed.

Lemma player_possession_heatmap_invalid_type (self : instance)
    (player : str + Z) (possession hm_type : str) (add_cbar : bool)
    (this_player : Element) (player_team : option str) (stats : Element) :
  ~ In hm_type (keys __possession_heatmap_dict) ->
  get_player self player = Ret (this_player, player_team) ->
  Element.find this_player (lit "PossessionData") = Ret (Some stats) ->
  In possession [lit "in"; lit "out"] ->
  player_possession_heatmap self player possession hm_type add_cbar
  = invalid_heatmap_type __possession_heatmap_dict hm_type.
Proof.
  intros Hkind Hplayer Hstats Hposs. unfold player_possession_heatmap.
  rewrite Hplayer. cbn [bind]. rewrite Hstats. cbn [bind].
  destruct (possession_data_valid stats possession Hposs) as [node ->].
  cbn [bind]. now rewrite (not_in_keys hm_type _ Hkind).
Qed.

(** C6. A heatmap type outside the enumeration of its category never
    yields a grid: the two team methods raise, and so does the player
    method whenever the player is resolved (when the player is not
    resolved, it is the exception of [get_player] that is raised). Once
    the team or the player is resolved (and, for the possession heatmaps,
    the possession data is there and the possession is in or out), the
    exception is the [ValueError] that lists the valid types of the
    category, whatever the attributes of the element are: the type is
    checked before the heatmap attribute is read. *)
Theorem invalid_heatmap_type_rejected (self : instance) (hm_type : str)
    (add_cbar : bool) :
  (~ In hm_type [lit "overall"; lit "defence"; lit "midfield"; lit "attack"] ->
   forall team,
     raises (team_heatmap self team hm_type add_cbar)
     /\ forall this_team,
          get_team self team = Ret this_team ->
          team_heatmap self team hm_type add_cbar
          = Raise ValueError
              (Some (lit "Invalid heatmap type: must be one of (overall, defence, midfield, attack), but provided "
                     ++ hm_type)))
  /\ (~ In hm_type [lit "overall"; lit "first-half"; lit "second-half"] ->
      forall possession,
        (forall team,
           raises (team_possession_heatmap self team possession hm_type add_cbar)
           /\ forall this_team stats,
                get_team self team = Ret (Some this_team) ->
                Element.find this_team (lit "PossessionData") = Ret (Some stats) ->
                In possession [lit "in"; lit "out"] ->
                team_possession_heatmap self team possession hm_type add_cbar
                = Raise ValueError
                    (Some (lit "Invalid heatmap type: must be one of (overall, first-half, second-half), but provided "
                           ++ hm_type)))
        /\ (forall player,
              (forall e m,
                 get_player self player = Raise e m ->
                 player_possession_heatmap self player possession hm_type
                   add_cbar
                 = Raise e m)
              /\ (forall found,
                    get_player self player = Ret found ->
                    raises (player_possession_heatmap self player possession
                              hm_type add_cbar))
              /\ forall this_player player_team stats,
                   get_player self player = Ret (this_player, player_team) ->
                   Element.find this_player (lit "PossessionData")
                   = Ret (Some stats) ->
                   In possession [lit "in"; lit "out"] ->
                   player_possession_heatmap self player possession hm_type
                     add_cbar
                   = Raise ValueError
                       (Some (lit "Invalid heatmap type: must be one of (overall, first-half, second-half), but provided "
                              ++ hm_type)))).
Proof.
  split.
  - intros Hkind team. split.
    + unfold team_heatmap. apply raises_bind; [apply get_team_modelled|].
      intros this_team.
      rewrite (not_in_keys hm_type __team_heatmap_dict Hkind).
      apply raises_Raise.
    + intros this_team Hteam.
      now rewrite (team_heatmap_invalid_type self team hm_type add_cbar
                     this_team Hkind Hteam).
  - intros Hkind possession. split.
    + intros team. split.
      * unfold team_possession_heatmap.
        apply raises_bind; [apply get_team_modelled|]. intros this_team.
        apply raises_bind; [now apply node_find_modelled|]. intros stats.
        apply raises_bind; [apply possession_data_modelled|]. intros node.
        rewrite (not_in_keys hm_type __possession_heatmap_dict Hkind).
        apply raises_Raise.
      * intros this_team stats Hteam Hstats Hposs.
        now rewrite (team_possession_heatmap_invalid_type self team possession
                       hm_type add_cbar this_team stats Hkind Hteam Hstats Hposs).
    + intros player. split; [|split].
      * intros e m Hplayer. unfold player_possession_heatmap.
        now rewrite Hplayer.
      * intros found Hplayer.
        now apply (possession_heatmap_of_player_raises self found possession
                     hm_type add_cbar Hkind player).
      * intros this_player player_team stats Hplayer Hstats Hposs.
        now rewrite (player_possession_heatmap_invalid_type self player
                       possession hm_type add_cbar this_player player_team stats
                       Hkind Hplayer Hstats Hposs).
Qed.

Ltac not_in_literals :=
  let H := fresh "H" in
  intros H; simpl in H;
  repeat (destruct H as [H | H]; [discriminate H|]); exact H.

Lemma invalid_heatmap_type_rejected_witness :
  team_heatmap Fixtures.source (lit "home") (lit "unknown") false
  = Raise ValueError
      (Some (lit "Invalid heatmap type: must be one of (overall, defence, midfield, attack), but provided unknown"))
  /\ team_possession_heatmap Fixtures.source (lit "home") (lit "in")
       (lit "unknown") false
     = Raise ValueError
         (Some (lit "Invalid heatmap type: must be one of (overall, first-half, second-half), but provided unknown"))
  /\ player_possession_heatmap Fixtures.source (inr 77%Z) (lit "out")
       (lit "unknown") false
     = Raise ValueError
         (Some (lit "Invalid heatmap type: must be one of (overall, first-half, second-half), but provided unknown")).
Proof.
  destruct (invalid_heatmap_type_rejected Fixtures.source (lit "unknown") false)
    as (Hteam & Hposs).
  split; [|split].
  - destruct (Hteam ltac:(not_in_literals) (lit "home")) as (_ & H).
    apply (H (Some Fixtures.home_team)). reflexivity.
  - destruct (Hposs ltac:(not_in_literals) (lit "in")) as (H & _).
    destruct (H (lit "home")) as (_ & H').
    apply (H' Fixtures.home_team Fixtures.possession_elem);
      [reflexivity | reflexivity | left; reflexivity].
  - destruct (Hposs ltac:(not_in_literals) (lit "out")) as (_ & H).
    destruct (H (inr 77%Z)) as (_ & _ & H').
    apply (H' Fixtures.home_77 (Some (lit "Rovers")) Fixtures.possession_elem);
      [reflexivity | reflexivity | right; left; reflexivity].
Defined.

(** ** The tokenizer *)

Import ElementPath.

Lemma upto_app (q : N) (s a b : str) :
  upto q s = Some (a, b) -> s = a ++ q :: b /\ ~ In q a.
Proof.
  revert a b; induction s as [|c s IH]; intros a b H; simpl in H;
    [discriminate|].
  destruct (N.eqb c q) eqn:E.
  - apply N.eqb_eq in E. injection H as <- <-. subst c. now split.
  - destruct (upto q s) as [[a' b']|]; [|discriminate].
    injection H as <- <-. destruct (IH a' b' eq_refl) as [-> Hin].
    split; [reflexivity|].
    intros [Hc | Hc]; [|contradiction].
    apply N.eqb_neq in E. contradiction.
Qed.

Lemma upto_found (q : N) (a b : str) :
  ~ In q a -> upto q (a ++ q :: b) = Some (a, b).
Proof.
  induction a as [|c a IH]; intros H; simpl.
  - now rewrite N.eqb_refl.
  - destruct (N.eqb c q) eqn:E.
    + apply N.eqb_eq in E. exfalso. apply H. now left.
    + rewrite IH; [reflexivity|]. intros Hin. apply H. now right.
Qed.

Lemma span_app (p : N -> bool) (s : str) :
  fst (span p s) ++ snd (span p s) = s.
Proof.
  induction s as [|c s IH]; simpl; [reflexivity|].
  destruct (p c); [|reflexivity].
  destruct (span p s) as [a b]. simpl in *. now rewrite IH.
Qed.

Lemma after_prefix_app (p s r : str) : after_prefix p s = Some r -> s = p ++ r.
Proof.
  revert s; induction p as [|x p IH]; intros s H; simpl in H.
  - now injection H as ->.
  - destruct s as [|y s]; [discriminate|].
    destruct (N.eqb x y) eqn:E; [|discriminate].
    apply N.eqb_eq in E. subst y. simpl. f_equal. now apply IH.
Qed.

Lemma first_literal_app (ps : list str) (s p r : str) :
  first_literal ps s = Some (p, r) -> In p ps /\ s = p ++ r.
Proof.
  induction ps as [|p' ps IH]; simpl; [discriminate|].
  destruct (after_prefix p' s) as [r'|] eqn:E.
  - intros H. injection H as <- <-. split; [now left|].
    now apply after_prefix_app.
  - intros H. destruct (IH H) as [Hin ->]. split; [now right | reflexivity].
Qed.

Lemma operators_not_empty (p : str) : In p operators -> 1 <= List.length p.
Proof.
  intros H.
  assert (Hall : forallb (fun p => Nat.leb 1 (List.length p)) operators = true)
    by reflexivity.
  rewrite forallb_forall in Hall. apply Nat.leb_le. now apply Hall.
Qed.

Ltac lengths :=
  repeat first [ rewrite length_app | progress cbn [List.length] ]; lia.

(** Every match consumes at least one character. *)
Lemma match_here_shorter (s : str) (t : token) (rest : str) :
  match_here s = Some (t, rest) -> List.length rest < List.length s.
Proof.
  unfold match_here, or_else.
  destruct (quoted s) as [[t1 r1]|] eqn:Q.
  { intros H. injection H as <- <-. unfold quoted in Q.
    destruct s as [|c r]; [discriminate|].
    destruct (N.eqb c quote || N.eqb c dquote); [|discriminate].
    destruct (upto c r) as [[body rest]|] eqn:U; [|discriminate].
    injection Q as <- <-. apply upto_app in U as [-> _].
    lengths. }
  destruct (first_literal operators s) as [[op r2]|] eqn:L.
  { intros H. injection H as <- <-.
    apply first_literal_app in L as [Hin ->].
    apply operators_not_empty in Hin. lengths. }
  destruct (qualified_name s) as [[t3 r3]|] eqn:G.
  { intros H. injection H as <- <-. unfold qualified_name in G.
    destruct s as [|c r]; [discriminate|].
    destruct (N.eqb c lbrace); [|discriminate].
    destruct (upto rbrace r) as [[[|x ns] after]|] eqn:U; try discriminate.
    apply upto_app in U as [-> _].
    pose proof (span_app name_char after) as Hspan.
    destruct (span name_char after) as [[|y name] rest']; [discriminate|].
    injection G as <- <-. simpl in Hspan. subst after.
    lengths. }
  destruct (plain_name s) as [[t4 r4]|] eqn:P.
  { intros H. injection H as <- <-. unfold plain_name in P.
    pose proof (span_app name_char s) as Hspan.
    destruct (span name_char s) as [[|y name] rest']; [discriminate|].
    injection P as <- <-. simpl in Hspan. subst s. lengths. }
  unfold blanks.
  pose proof (span_app isspace s) as Hspan.
  destruct (span isspace s) as [[|y name] rest']; [discriminate|].
  intros H. injection H as <- <-. simpl in Hspan. subst s. lengths.
Qed.

(** The rounds never run out: any two numbers of rounds from the length
    of the pattern on give the same tokens. *)
Lemma findall_rounds_any (m n : nat) (s : str) :
  List.length s <= m -> List.length s <= n ->
  findall_rounds n s = findall_rounds m s.
Proof.
  revert n s. induction m as [|m IH]; intros n s Hm Hn.
  - destruct s; [|simpl in Hm; lia]. now destruct n.
  - destruct n as [|n]; [destruct s; [reflexivity | simpl in Hn; lia]|].
    destruct s as [|c r]; [reflexivity|].
    cbn [findall_rounds].
    destruct (match_here (c :: r)) as [[t rest]|] eqn:M.
    + apply match_here_shorter in M. simpl in M, Hm, Hn.
      f_equal. apply IH; lia.
    + simpl in Hm, Hn. apply IH; lia.
Qed.

Lemma findall_rounds_enough (n : nat) (s : str) :
  List.length s <= n -> findall_rounds n s = findall s.
Proof. intros H. unfold findall. now apply findall_rounds_any. Qed.

(** One round of [findall]. *)
Lemma findall_step (c : N) (r : str) :
  findall (c :: r)
  = match match_here (c :: r) with
    | Some (t, rest) => t :: findall rest
    | None => findall r
    end.
Proof.
  unfold findall at 1. cbn [List.length findall_rounds].
  destruct (match_here (c :: r)) as [[t rest]|] eqn:M.
  - f_equal. apply findall_rounds_enough.
    apply match_here_shorter in M. simpl in M. lia.
  - apply findall_rounds_enough. lia.
Qed.

(** The tokens of a query by attribute up to the opening quote of the
    value. *)
Ltac literal_head :=
  match goal with
  | |- context [lit ?s ++ ?x] =>
      let l := eval vm_compute in (lit s) in
      change (lit s ++ x) with (l ++ x); cbn [app]
  end.

Ltac round :=
  rewrite findall_step;
  match goal with
  | |- context [match_here ?s] =>
      let r := eval cbv in (match_here s) in
      change (match_here s) with r
  end;
  cbv iota beta.

Lemma findall_query_by_id (tail : str) :
  findall (lit "Player/[@iPlayerId='" ++ tail)
  = [ ([], lit "Player"); (lit "/", []); (lit "[", []); (lit "@", []);
      ([], lit "iPlayerId"); (lit "=", []) ]
    ++ findall (quote :: tail).
Proof. literal_head. do 6 round. reflexivity. Qed.

Lemma findall_query_by_name (tail : str) :
  findall (lit "Player/[@sPlayerName='" ++ tail)
  = [ ([], lit "Player"); (lit "/", []); (lit "[", []); (lit "@", []);
      ([], lit "sPlayerName"); (lit "=", []) ]
    ++ findall (quote :: tail).
Proof. literal_head. do 6 round. reflexivity. Qed.

(** A value without a single quote is one quoted token, and the closing
    bracket follows. *)
Lemma findall_quoted_value (value : str) :
  ~ In quote value ->
  findall (quote :: value ++ lit "']")
  = [ (quote :: value ++ [quote], []); (lit "]", []) ].
Proof.
  intros H. rewrite findall_step.
  assert (M : match_here (quote :: value ++ lit "']")
              = Some ((quote :: value ++ [quote], []), lit "]")).
  { unfold match_here, quoted. cbn [N.eqb quote dquote orb].
    change (lit "']") with (quote :: lit "]").
    change (N.eqb 39 39 || N.eqb 39 34) with true. cbv iota.
    now rewrite (upto_found quote value (lit "]") H). }
  rewrite M. reflexivity.
Qed.

(** ** The compiled query *)

Lemma last_chars_app (n : nat) (a b : str) :
  n <= List.length b -> last_chars n (a ++ b) = last_chars n b.
Proof.
  intros H. unfold last_chars. rewrite length_app, skipn_app.
  rewrite skipn_all2 by lia. cbn [app]. f_equal. lia.
Qed.

Lemma read_predicate_rest (ts : list (outcome token)) (signature : str)
    (predicate : list str) (sig : str) (ops : list str)
    (rest : list (outcome token)) :
  read_predicate ts signature predicate = Ret (sig, ops, rest) ->
  List.length rest < List.length ts.
Proof.
  revert signature predicate.
  induction ts as [|[[ttype name]| |] ts IH]; intros signature predicate H;
    cbn [read_predicate] in H; try discriminate.
  destruct (str_eqb ttype (lit "]")).
  - injection H as _ _ <-. simpl. lia.
  - destruct ttype as [|c ttype].
    + destruct name; apply IH in H; simpl; lia.
    + destruct (N.eqb c quote || N.eqb c dquote); apply IH in H; simpl; lia.
Qed.

Lemma prepare_rest (tok : token) (ts : list (outcome token)) (sel : selector)
    (rest : list (outcome token)) :
  prepare tok ts = Ret (sel, rest) -> List.length rest <= List.length ts.
Proof.
  unfold prepare. destruct tok as [ttype name].
  destruct (str_eqb ttype []).
  - destruct (prepare_child name); cbn [bind]; try discriminate.
    intros H. injection H as _ <-. lia.
  - destruct (str_eqb ttype (lit "[")).
    + destruct (read_predicate ts [] []) as [[[sig ops] rest']| |] eqn:R;
        cbn [bind]; try discriminate.
      destruct (predicate_selector sig ops); cbn [bind]; try discriminate.
      intros H. injection H as _ <-.
      apply read_predicate_rest in R. lia.
    + destruct (str_in ttype _); discriminate.
Qed.

(** The rounds of the compilation never run out: every round after the
    first takes a token. *)
Lemma selectors_rounds_any (m n : nat) (tok : token) (ts : list (outcome token)) :
  List.length ts < m -> List.length ts < n ->
  selectors n tok ts = selectors m tok ts.
Proof.
  revert n tok ts. induction m as [|m IH]; intros n tok ts Hm Hn; [lia|].
  destruct n as [|n]; [lia|]. cbn [selectors].
  destruct (prepare tok ts) as [[sel rest]| |] eqn:P; cbn [bind];
    try reflexivity.
  apply prepare_rest in P.
  destruct rest as [|[t| |] rest]; try reflexivity.
  simpl in P.
  destruct (str_eqb (fst t) (lit "/")).
  - destruct rest as [|[t'| |] rest]; try reflexivity.
    simpl in P. rewrite (IH n t' rest) by lia. reflexivity.
  - rewrite (IH n t rest) by lia. reflexivity.
Qed.

(** The selectors of the tokens of a query by attribute: a child step and
    the attribute predicate on the body of the quoted string. *)
Lemma selectors_of_query (key body : str) :
  key <> [] ->
  selectors 8 ([], lit "Player")
    (map Ret [ (lit "/", []); (lit "[", []); (lit "@", []); ([], key);
               (lit "=", []); (quote :: body, []); (lit "]", []) ])
  = Ret [ child (lit "Player"); attr_eq key (removelast body) ].
Proof.
  intros H. destruct key as [|k key]; [contradiction|].
  vm_compute. reflexivity.
Qed.

Lemma compile_query_by_id (value : str) :
  ~ In quote value ->
  compile (lit "Player/[@iPlayerId='" ++ value ++ lit "']")
  = Ret [ child (lit "Player"); attr_eq (lit "iPlayerId") value ].
Proof.
  intros H. unfold compile.
  rewrite (app_assoc _ value (lit "']")).
  rewrite (last_chars_app 1 _ (lit "']")) by (cbn; lia).
  change (str_eqb (last_chars 1 (lit "']")) (lit "/")) with false.
  cbv iota. rewrite <- app_assoc.
  assert (F : firstn 1 (lit "Player/[@iPlayerId='" ++ value ++ lit "']")
              = lit "P") by (literal_head; reflexivity).
  rewrite F. change (str_eqb (lit "P") (lit "/")) with false. cbv iota.
  unfold xpath_tokenizer.
  rewrite findall_query_by_id, (findall_quoted_value value H).
  pose proof (selectors_of_query (lit "iPlayerId") (value ++ [quote])
                ltac:(discriminate)) as S.
  rewrite removelast_last in S. exact S.
Qed.

Lemma compile_query_by_name (value : str) :
  ~ In quote value ->
  compile (lit "Player/[@sPlayerName='" ++ value ++ lit "']")
  = Ret [ child (lit "Player"); attr_eq (lit "sPlayerName") value ].
Proof.
  intros H. unfold compile.
  rewrite (app_assoc _ value (lit "']")).
  rewrite (last_chars_app 1 _ (lit "']")) by (cbn; lia).
  change (str_eqb (last_chars 1 (lit "']")) (lit "/")) with false.
  cbv iota. rewrite <- app_assoc.
  assert (F : firstn 1 (lit "Player/[@sPlayerName='" ++ value ++ lit "']")
              = lit "P") by (literal_head; reflexivity).
  rewrite F. change (str_eqb (lit "P") (lit "/")) with false. cbv iota.
  unfold xpath_tokenizer.
  rewrite findall_query_by_name, (findall_quoted_value value H).
  pose proof (selectors_of_query (lit "sPlayerName") (value ++ [quote])
                ltac:(discriminate)) as S.
  rewrite removelast_last in S. exact S.
Qed.

Lemma hd_error_filter {A : Type} (p q : A -> bool) (l : list A) :
  hd_error (filter q (filter p l)) = List.find (fun e => p e && q e) l.
Proof.
  induction l as [|x l IH]; simpl; [reflexivity|].
  destruct (p x); simpl; [|exact IH].
  destruct (q x); simpl; [reflexivity | exact IH].
Qed.

(** The selectors of a query by attribute pick the exact matches among
    the Player children. *)
Lemma run_query (team : Element) (key value : str) :
  hd_error (fold_left (fun result sel => select sel result)
              [ child (lit "Player"); attr_eq key value ] [team])
  = Resolution.exact_match team key value.
Proof.
  cbn [fold_left select flat_map]. rewrite app_nil_r.
  apply hd_error_filter.
Qed.

(** A query by id or by name for a value without a single quote is the
    exact match on that attribute. *)
Lemma find_query_by_id (team : Element) (value : str) :
  ~ In quote value ->
  Element.find team (lit "Player/[@iPlayerId='" ++ value ++ lit "']")
  = Ret (Resolution.exact_match team (lit "iPlayerId") value).
Proof.
  intros H. unfold Element.find.
  assert (C : Element.checkpath (lit "Player/[@iPlayerId='" ++ value ++ lit "']")
              = true) by (literal_head; reflexivity).
  rewrite C. unfold ElementPath.find, iterfind.
  rewrite (compile_query_by_id value H). cbn [bind].
  now rewrite run_query.
Qed.

Lemma find_query_by_name (team : Element) (value : str) :
  ~ In quote value ->
  Element.find team (lit "Player/[@sPlayerName='" ++ value ++ lit "']")
  = Ret (Resolution.exact_match team (lit "sPlayerName") value).
Proof.
  intros H. unfold Element.find.
  assert (C : Element.checkpath (lit "Player/[@sPlayerName='" ++ value ++ lit "']")
              = true) by (literal_head; reflexivity).
  rewrite C. unfold ElementPath.find, iterfind.
  rewrite (compile_query_by_name value H). cbn [bind].
  now rewrite run_query.
Qed.

(** ** Player resolution *)

(** For a selector without a single quote, [get_player] carries out the
    four exact-match lookups of the resolution order and returns the first
    match; the team name that comes with it is read from the attribute
    sTeamName of the team for the first three lookups, and from sTamName
    for the fourth. *)
Lemma get_player_resolution_order (self : instance) (home away : Element)
    (player : str + Z) :
  TracabTf05Xml.find self (lit "HomeTeam") = Ret (Some home) ->
  TracabTf05Xml.find self (lit "AwayTeam") = Ret (Some away) ->
  ~ In quote (str_of player) ->
  get_player self player
  = match Resolution.resolve_player home away (str_of player) with
    | Some (p, Resolution.home_by_id) => Ret (p, get home (lit "sTeamName"))
    | Some (p, Resolution.away_by_id) => Ret (p, get away (lit "sTeamName"))
    | Some (p, Resolution.home_by_name) => Ret (p, get home (lit "sTeamName"))
    | Some (p, Resolution.away_by_name) => Ret (p, get away (lit "sTamName"))
    | None =>
        Raise ValueError
          (Some (lit "Player node not found. Check the player ID or player name you provided. Player names must be spelled exactly as they are in the document."))
    end.
Proof.
  intros Hhome Haway Hquote. unfold get_player.
  rewrite Hhome, Haway. cbn [bind node_find node_get].
  rewrite !(find_query_by_id _ _ Hquote), !(find_query_by_name _ _ Hquote).
  unfold Resolution.resolve_player. cbn [bind].
  destruct (Resolution.exact_match home (lit "iPlayerId") (str_of player));
    cbn [bind fst]; [reflexivity|].
  destruct (Resolution.exact_match away (lit "iPlayerId") (str_of player));
    cbn [bind fst]; [reflexivity|].
  destruct (Resolution.exact_match home (lit "sPlayerName") (str_of player));
    cbn [bind fst]; [reflexivity|].
  destruct (Resolution.exact_match away (lit "sPlayerName") (str_of player));
    reflexivity.
Qed.

Lemma string_of_uint_no_quote (d : Decimal.uint) :
  ~ In quote (lit (NilEmpty.string_of_uint d)).
Proof.
  induction d; cbn; intros H; try (destruct H as [H | H]; [discriminate H|]);
    auto.
Qed.

(** The decimal digits of an [int] have no single quote: a selector given
    as an [int] is always resolved by the four lookups. *)
Lemma str_of_int_no_quote (n : Z) : ~ In quote (str_of_int n).
Proof.
  unfold str_of_int, NilZero.string_of_int.
  destruct (Z.to_int n) as [d | d].
  - unfold NilZero.string_of_uint. destruct d;
      try apply string_of_uint_no_quote.
    cbn. intros [H | []]. discriminate H.
  - unfold NilZero.string_of_uint.
    assert (H : forall s, ~ In quote (lit s) -> ~ In quote (lit (String "-" s))).
    { intros s Hs [H | H]; [discriminate H | now apply Hs]. }
    apply H. destruct d; try apply string_of_uint_no_quote.
    cbn. intros [H' | []]. discriminate H'.
Qed.

(** The fixture of the specification: the home team has the player with
    id 77, the away team a player named 77, and 77 resolves to the home
    player, as a string and as an [int]. *)
Lemma get_player_77 :
  get Fixtures.home_77 (lit "iPlayerId") = Some (lit "77")
  /\ get Fixtures.away_named_77 (lit "sPlayerName") = Some (lit "77")
  /\ get_player Fixtures.source (inl (lit "77"))
     = Ret (Fixtures.home_77, Some (lit "Rovers"))
  /\ get_player Fixtures.source (inr 77%Z)
     = Ret (Fixtures.home_77, Some (lit "Rovers")).
Proof. repeat split. Qed.

(** ** Player resolution at the two defects *)

(** C2. The home team has a player whose name is Sean O'NEIL, spelled
    exactly so; resolving that name does not reach the lookups by name.
    In the query by id the apostrophe closes the quoted value after
    Sean O, the rest of the name is one more token before the bracket, the
    predicate is invalid, and the first lookup raises a [SyntaxError]. *)
Theorem get_player_apostrophe_raises :
  TracabTf05Xml.find Fixtures.source (lit "HomeTeam")
  = Ret (Some Fixtures.home_team)
  /\ In Fixtures.home_77 (children Fixtures.home_team)
  /\ get Fixtures.home_77 (lit "sPlayerName") = Some (lit "Sean O'NEIL")
  /\ xpath_tokenizer (lit "Player/[@iPlayerId='Sean O'NEIL']")
     = map Ret [ ([], lit "Player"); (lit "/", []); (lit "[", []);
                 (lit "@", []); ([], lit "iPlayerId"); (lit "=", []);
                 (lit "'Sean O'", []); ([], lit "NEIL'"); (lit "]", []) ]
  /\ Element.find Fixtures.home_team (lit "Player/[@iPlayerId='Sean O'NEIL']")
     = Raise SyntaxError (Some (lit "invalid predicate"))
  /\ get_player Fixtures.source (inl (lit "Sean O'NEIL"))
     = Raise SyntaxError (Some (lit "invalid predicate")).
Proof.
  split; [reflexivity|]. split; [right; left; reflexivity|].
  repeat split.
Qed.

(** C3. Bob STONE is found by his name in the away team, whose name is
    Athletic; the team name returned with him is [None], the value of the
    attribute sTamName that no element has. *)
Theorem get_player_away_name_loses_team :
  TracabTf05Xml.find Fixtures.source (lit "AwayTeam")
  = Ret (Some Fixtures.away_team)
  /\ In Fixtures.away_bob (children Fixtures.away_team)
  /\ get Fixtures.away_team (lit "sTeamName") = Some (lit "Athletic")
  /\ Resolution.resolve_player Fixtures.home_team Fixtures.away_team
       (lit "Bob STONE")
     = Some (Fixtures.away_bob, Resolution.away_by_name)
  /\ get_player Fixtures.source (inl (lit "Bob STONE"))
     = Ret (Fixtures.away_bob, None).
Proof.
  split; [reflexivity|]. split; [right; right; left; reflexivity|].
  repeat split.
Qed.

(** * Further properties of the accessors *)

(** ** What [get_player] returns *)

Lemma exact_match_Some (team : Element) (key value : str) (p : Element) :
  Resolution.exact_match team key value = Some p ->
  In p (children team) /\ tag p = lit "Player" /\ get p key = Some value.
Proof.
  unfold Resolution.exact_match. intros H.
  apply find_some in H as [Hin Hp].
  apply andb_true_iff in Hp as [Htag Hkey].
  apply str_eqb_eq in Htag.
  destruct (get p key) as [v|] eqn:G; [|discriminate].
  simpl in Hkey. apply str_eqb_eq in Hkey. subst v. auto.
Qed.

Lemma exact_match_None (team : Element) (key value : str) :
  Resolution.exact_match team key value = None <->
  forall p, In p (children team) -> tag p = lit "Player" ->
            get p key <> Some value.
Proof.
  unfold Resolution.exact_match. split.
  - intros H p Hin Htag Hkey.
    apply (find_none _ _ H) in Hin.
    rewrite Htag, Hkey, str_eqb_refl in Hin. simpl in Hin.
    rewrite str_eqb_refl in Hin. discriminate.
  - intros H.
    destruct (List.find _ (children team)) as [p|] eqn:F; [|reflexivity].
    apply find_some in F as [Hin Hp].
    apply andb_true_iff in Hp as [Htag Hkey].
    apply str_eqb_eq in Htag.
    destruct (get p key) as [v|] eqn:G; [|discriminate].
    simpl in Hkey. apply str_eqb_eq in Hkey. subst v.
    now destruct (H p Hin Htag).
Qed.

Lemma exact_match_first (team : Element) (key value : str) (q : Element) :
  In q (children team) -> tag q = lit "Player" -> get q key = Some value ->
  exists p, Resolution.exact_match team key value = Some p.
Proof.
  intros Hin Htag Hkey.
  destruct (Resolution.exact_match team key value) as [p|] eqn:E; [eauto|].
  now destruct (proj1 (exact_match_None team key value) E q Hin Htag).
Qed.

Lemma plain_selector_str_of (player : str + Z) :
  Resolution.plain_selector player -> ~ In quote (str_of player).
Proof.
  destruct player as [s | n]; simpl; [auto|].
  intros _. apply str_of_int_no_quote.
Qed.

Ltac plain_literal :=
  simpl; let H := fresh "H" in
  intros H; repeat (destruct H as [H | H]; [discriminate H|]); exact H.

(** X1. With both team elements in the document and a selector that has
    no single quote (any [int] is one), [get_player] is the four exact
    lookups in their order: id in the home team, id in the away team,
    name in the home team, name in the away team; the first match is
    returned, and no match is the [ValueError]. *)
Theorem get_player_four_lookups (self : instance) (home away : Element)
    (player : str + Z) :
  TracabTf05Xml.find self (lit "HomeTeam") = Ret (Some home) ->
  TracabTf05Xml.find self (lit "AwayTeam") = Ret (Some away) ->
  Resolution.plain_selector player ->
  get_player self player
  = match Resolution.resolve_player home away (str_of player) with
    | Some (p, Resolution.home_by_id) => Ret (p, get home (lit "sTeamName"))
    | Some (p, Resolution.away_by_id) => Ret (p, get away (lit "sTeamName"))
    | Some (p, Resolution.home_by_name) => Ret (p, get home (lit "sTeamName"))
    | Some (p, Resolution.away_by_name) => Ret (p, get away (lit "sTamName"))
    | None =>
        Raise ValueError
          (Some (lit "Player node not found. Check the player ID or player name you provided. Player names must be spelled exactly as they are in the document."))
    end.
Proof.
  intros Hhome Haway Hplain.
  apply get_player_resolution_order; try assumption.
  now apply plain_selector_str_of.
Qed.

Lemma get_player_four_lookups_witness :
  get_player Fixtures.source (inr 9%Z)
  = Ret (Fixtures.away_named_77, Some (lit "Athletic"))
  /\ get_player Fixtures.source (inl (lit "nobody"))
     = Raise ValueError
         (Some (lit "Player node not found. Check the player ID or player name you provided. Player names must be spelled exactly as they are in the document.")).
Proof.
  split.
  - exact (get_player_four_lookups Fixtures.source Fixtures.home_team
             Fixtures.away_team (inr 9%Z) eq_refl eq_refl I).
  - exact (get_player_four_lookups Fixtures.source Fixtures.home_team
             Fixtures.away_team (inl (lit "nobody")) eq_refl eq_refl
             ltac:(plain_literal)).
Defined.

(** X2. Whatever [get_player] returns for a selector without a single
    quote is a Player child of the home or of the away team whose id or
    whose name is exactly the selector. *)
Theorem get_player_returns_a_match (self : instance) (home away : Element)
    (player : str + Z) (p : Element) (team_name : option str) :
  TracabTf05Xml.find self (lit "HomeTeam") = Ret (Some home) ->
  TracabTf05Xml.find self (lit "AwayTeam") = Ret (Some away) ->
  Resolution.plain_selector player ->
  get_player self player = Ret (p, team_name) ->
  Resolution.matches home (str_of player) p
  \/ Resolution.matches away (str_of player) p.
Proof.
  intros Hhome Haway Hplain.
  rewrite (get_player_resolution_order self home away player Hhome Haway
             (plain_selector_str_of player Hplain)).
  unfold Resolution.resolve_player, Resolution.matches.
  destruct (Resolution.exact_match home (lit "iPlayerId") (str_of player))
    as [q|] eqn:E1.
  { intros H. injection H as <- _. apply exact_match_Some in E1. tauto. }
  destruct (Resolution.exact_match away (lit "iPlayerId") (str_of player))
    as [q|] eqn:E2.
  { intros H. injection H as <- _. apply exact_match_Some in E2. tauto. }
  destruct (Resolution.exact_match home (lit "sPlayerName") (str_of player))
    as [q|] eqn:E3.
  { intros H. injection H as <- _. apply exact_match_Some in E3. tauto. }
  destruct (Resolution.exact_match away (lit "sPlayerName") (str_of player))
    as [q|] eqn:E4; [|discriminate].
  intros H. injection H as <- _. apply exact_match_Some in E4. tauto.
Qed.

Lemma get_player_returns_a_match_witness :
  Resolution.matches Fixtures.home_team (lit "77") Fixtures.home_77
  \/ Resolution.matches Fixtures.away_team (lit "77") Fixtures.home_77.
Proof.
  exact (get_player_returns_a_match Fixtures.source Fixtures.home_team
           Fixtures.away_team (inl (lit "77")) Fixtures.home_77
           (Some (lit "Rovers")) eq_refl eq_refl ltac:(plain_literal) eq_refl).
Defined.

(** X3. [get_player] raises its [ValueError] exactly when no Player child
    of either team has the selector as its id or as its name (both team
    elements in the document, no single quote in the selector). *)
Theorem get_player_not_found_iff (self : instance) (home away : Element)
    (player : str + Z) :
  TracabTf05Xml.find self (lit "HomeTeam") = Ret (Some home) ->
  TracabTf05Xml.find self (lit "AwayTeam") = Ret (Some away) ->
  Resolution.plain_selector player ->
  (get_player self player
   = Raise ValueError
       (Some (lit "Player node not found. Check the player ID or player name you provided. Player names must be spelled exactly as they are in the document.")))
  <-> (forall p, ~ Resolution.matches home (str_of player) p
                 /\ ~ Resolution.matches away (str_of player) p).
Proof.
  intros Hhome Haway Hplain.
  rewrite (get_player_resolution_order self home away player Hhome Haway
             (plain_selector_str_of player Hplain)).
  unfold Resolution.resolve_player, Resolution.matches.
  destruct (Resolution.exact_match home (lit "iPlayerId") (str_of player))
    as [q|] eqn:E1.
  { split; [discriminate|]. intros H. apply exact_match_Some in E1.
    destruct (H q) as [Hq _]. tauto. }
  destruct (Resolution.exact_match away (lit "iPlayerId") (str_of player))
    as [q|] eqn:E2.
  { split; [discriminate|]. intros H. apply exact_match_Some in E2.
    destruct (H q) as [_ Hq]. tauto. }
  destruct (Resolution.exact_match home (lit "sPlayerName") (str_of player))
    as [q|] eqn:E3.
  { split; [discriminate|]. intros H. apply exact_match_Some in E3.
    destruct (H q) as [Hq _]. tauto. }
  destruct (Resolution.exact_match away (lit "sPlayerName") (str_of player))
    as [q|] eqn:E4.
  { split; [discriminate|]. intros H. apply exact_match_Some in E4.
    destruct (H q) as [_ Hq]. tauto. }
  split; [|reflexivity]. intros _ p.
  pose proof (proj1 (exact_match_None _ _ _) E1 p).
  pose proof (proj1 (exact_match_None _ _ _) E2 p).
  pose proof (proj1 (exact_match_None _ _ _) E3 p).
  pose proof (proj1 (exact_match_None _ _ _) E4 p).
  tauto.
Qed.

Lemma get_player_not_found_iff_witness :
  get_player Fixtures.source (inr 12345%Z)
  = Raise ValueError
      (Some (lit "Player node not found. Check the player ID or player name you provided. Player names must be spelled exactly as they are in the document."))
  <-> (forall p, ~ Resolution.matches Fixtures.home_team (lit "12345") p
                 /\ ~ Resolution.matches Fixtures.away_team (lit "12345") p).
Proof.
  exact (get_player_not_found_iff Fixtures.source Fixtures.home_team
           Fixtures.away_team (inr 12345%Z) eq_refl eq_refl I).
Defined.

(** X4. An id match in the home team wins: when some Player child of the
    home team has the selector as its id, [get_player] returns a home
    player with that id together with the home team's name, whatever ids
    and names the away team has. *)
Theorem get_player_home_id_wins (self : instance) (home away q : Element)
    (player : str + Z) :
  TracabTf05Xml.find self (lit "HomeTeam") = Ret (Some home) ->
  TracabTf05Xml.find self (lit "AwayTeam") = Ret (Some away) ->
  Resolution.plain_selector player ->
  In q (children home) -> tag q = lit "Player" ->
  get q (lit "iPlayerId") = Some (str_of player) ->
  exists p,
    get_player self player = Ret (p, get home (lit "sTeamName"))
    /\ In p (children home)
    /\ get p (lit "iPlayerId") = Some (str_of player).
Proof.
  intros Hhome Haway Hplain Hin Htag Hid.
  rewrite (get_player_resolution_order self home away player Hhome Haway
             (plain_selector_str_of player Hplain)).
  unfold Resolution.resolve_player.
  destruct (exact_match_first home (lit "iPlayerId") (str_of player) q
              Hin Htag Hid) as [p E].
  rewrite E. exists p. split; [reflexivity|].
  apply exact_match_Some in E. tauto.
Qed.

Lemma get_player_home_id_wins_witness :
  exists p,
    get_player Fixtures.source (inl (lit "77"))
    = Ret (p, get Fixtures.home_team (lit "sTeamName"))
    /\ In p (children Fixtures.home_team)
    /\ get p (lit "iPlayerId") = Some (lit "77").
Proof.
  apply (get_player_home_id_wins Fixtures.source Fixtures.home_team
           Fixtures.away_team Fixtures.home_77 (inl (lit "77")));
    try reflexivity.
  - plain_literal.
  - right. left. reflexivity.
Defined.

Lemma find_root (self : instance) (path : str) (node : option Element) :
  TracabTf05Xml.find self path = Ret node -> exists root, _root self = Some root.
Proof.
  unfold TracabTf05Xml.find. destruct (_root self) as [root|]; [eauto|].
  discriminate.
Qed.

Lemma find_tag_returns (self : instance) (root : Element) (path : str) :
  _root self = Some root ->
  str_eqb (firstn 1 path) (lit "/") = false ->
  Element.checkpath path = false ->
  exists node, TracabTf05Xml.find self path = Ret node.
Proof.
  intros Hroot Hslash Hplain. unfold TracabTf05Xml.find.
  rewrite Hslash, Hroot. now apply find_plain_tag_cases.
Qed.

(** X5. [get_player] and a missing team element. Before [parse], and in
    a document without a HomeTeam element, every call is an
    [AttributeError], whatever the selector and the away team. In a
    document without an AwayTeam element, a selector that is the id of a
    home player is still resolved, and every other selector (without a
    single quote) is an [AttributeError], also the name of a home
    player. *)
Theorem get_player_missing_team (self : instance) (player : str + Z) :
  (_root self = None -> get_player self player = Raise AttributeError None)
  /\ (TracabTf05Xml.find self (lit "HomeTeam") = Ret None ->
      get_player self player = Raise AttributeError None)
  /\ (forall home,
        TracabTf05Xml.find self (lit "HomeTeam") = Ret (Some home) ->
        TracabTf05Xml.find self (lit "AwayTeam") = Ret None ->
        Resolution.plain_selector player ->
        get_player self player
        = match Resolution.exact_match home (lit "iPlayerId") (str_of player) with
          | Some p => Ret (p, get home (lit "sTeamName"))
          | None => Raise AttributeError None
          end).
Proof.
  split; [|split].
  - intros Hroot. unfold get_player, TracabTf05Xml.find.
    rewrite Hroot. reflexivity.
  - intros Hhome. destruct (find_root self _ _ Hhome) as [root Hroot].
    destruct (find_tag_returns self root (lit "AwayTeam") Hroot eq_refl eq_refl)
      as [away Haway].
    unfold get_player. rewrite Hhome, Haway. reflexivity.
  - intros home Hhome Haway Hplain. unfold get_player.
    rewrite Hhome, Haway. cbn [bind node_find node_get].
    rewrite (find_query_by_id home _ (plain_selector_str_of player Hplain)).
    cbn [bind].
    destruct (Resolution.exact_match home (lit "iPlayerId") (str_of player));
      reflexivity.
Qed.

Lemma get_player_missing_team_witness :
  get_player (__init__ (lit "match.xml")) (inr 77%Z) = Raise AttributeError None
  /\ get_player Fixtures.source_no_home (inl (lit "Bob STONE"))
     = Raise AttributeError None
  /\ get_player Fixtures.source_no_away (inr 77%Z)
     = Ret (Fixtures.home_77, Some (lit "Rovers"))
  /\ get_player Fixtures.source_no_away (inl (lit "Sean ONEIL"))
     = Raise AttributeError None.
Proof.
  split; [|split; [|split]].
  - destruct (get_player_missing_team (__init__ (lit "match.xml")) (inr 77%Z))
      as (H & _).
    apply H. reflexivity.
  - destruct (get_player_missing_team Fixtures.source_no_home
                (inl (lit "Bob STONE"))) as (_ & H & _).
    apply H. reflexivity.
  - destruct (get_player_missing_team Fixtures.source_no_away (inr 77%Z))
      as (_ & _ & H).
    exact (H Fixtures.home_team eq_refl eq_refl I).
  - destruct (get_player_missing_team Fixtures.source_no_away
                (inl (lit "Sean ONEIL"))) as (_ & _ & H).
    exact (H Fixtures.home_team eq_refl eq_refl ltac:(plain_literal)).
Defined.

(** ** The players of a team *)

Lemma fold_append_player (found : list Element) (acc : players) :
  fold_left append_player found acc
  = mkPlayers (id acc ++ map (fun p => get p (lit "iPlayerId")) found)
              (jersey acc ++ map (fun p => get p (lit "iJersey")) found)
              (name acc ++ map (fun p => get p (lit "sPlayerName")) found).
Proof.
  revert acc. induction found as [|p found IH]; intros acc; cbn [fold_left map].
  - rewrite !app_nil_r. now destruct acc.
  - rewrite IH. unfold append_player. cbn [id jersey name].
    now rewrite <- !app_assoc.
Qed.

(** The Player children of a team element, in document order. *)
Lemma findall_Player (team : Element) :
  Element.findall team (lit "Player")
  = Ret (filter (fun e => str_eqb (tag e) (lit "Player")) (children team)).
Proof. reflexivity. Qed.

Lemma get_team_cases (self : instance) (team : str) :
  get_team self team = TracabTf05Xml.find self (lit "HomeTeam")
  \/ get_team self team = TracabTf05Xml.find self (lit "AwayTeam")
  \/ exists m, get_team self team = Raise ValueError m.
Proof.
  unfold get_team.
  destruct (str_in team [lit "home"; lit "away"]) eqn:R.
  - apply str_in_In in R. destruct R as [<- | [<- | []]]; auto.
  - destruct (opt_str_eqb (Some team) (home_team_name self)); [auto|].
    destruct (opt_str_eqb (Some team) (away_team_name self)); [auto|].
    right. right. eauto.
Qed.

(** X6. [get_team_players] on a resolved team: the three lists are the
    ids, the jersey numbers and the names of the Player children of the
    team element, in document order, the other children left out. The
    lists have one entry per player, [None] where the player has no such
    attribute, so entries at the same index belong to the same player. *)
Theorem get_team_players_aligned (self : instance) (team : str)
    (this_team : Element) :
  get_team self team = Ret (Some this_team) ->
  exists ps,
    get_team_players self team = Ret ps
    /\ (let found := filter (fun e => str_eqb (tag e) (lit "Player"))
                            (children this_team) in
        id ps = map (fun p => get p (lit "iPlayerId")) found
        /\ jersey ps = map (fun p => get p (lit "iJersey")) found
        /\ name ps = map (fun p => get p (lit "sPlayerName")) found
        /\ List.length (id ps) = List.length found
        /\ List.length (jersey ps) = List.length found
        /\ List.length (name ps) = List.length found).
Proof.
  intros Hteam. unfold get_team_players. rewrite Hteam.
  cbn [bind node_findall]. rewrite findall_Player. cbn [bind].
  rewrite fold_append_player. cbn [id jersey name app].
  eexists. split; [reflexivity|]. cbn [id jersey name].
  rewrite !length_map. repeat split.
Qed.

Lemma get_team_players_aligned_witness :
  exists ps,
    get_team_players Fixtures.source (lit "Athletic") = Ret ps
    /\ (let found := filter (fun e => str_eqb (tag e) (lit "Player"))
                            (children Fixtures.away_team) in
        id ps = map (fun p => get p (lit "iPlayerId")) found
        /\ jersey ps = map (fun p => get p (lit "iJersey")) found
        /\ name ps = map (fun p => get p (lit "sPlayerName")) found
        /\ List.length (id ps) = List.length found
        /\ List.length (jersey ps) = List.length found
        /\ List.length (name ps) = List.length found).
Proof.
  exact (get_team_players_aligned Fixtures.source (lit "Athletic")
           Fixtures.away_team eq_refl).
Defined.

(** X7. [get_team_players] fails as the resolution of the team does: an
    unknown team is the [ValueError] of [get_team], and a team whose
    element is not in the document is an [AttributeError]; it returns
    exactly when the team is resolved to an element, also when that
    element has no player. *)
Theorem get_team_players_errors (self : instance) (team : str) :
  (forall e m, get_team self team = Raise e m ->
               get_team_players self team = Raise e m)
  /\ (get_team self team = Ret None ->
      get_team_players self team = Raise AttributeError None)
  /\ ((exists ps, get_team_players self team = Ret ps)
      <-> exists this_team, get_team self team = Ret (Some this_team)).
Proof.
  unfold get_team_players. split; [|split].
  - intros e m H. now rewrite H.
  - intros H. now rewrite H.
  - split.
    + intros [ps H]. destruct (get_team self team) as [[this_team|]| |];
        cbn [bind node_findall] in H; try discriminate. eauto.
    + intros [this_team ->]. cbn [bind node_findall].
      rewrite findall_Player. cbn [bind]. eauto.
Qed.

Lemma get_team_players_errors_witness :
  get_team_players Fixtures.source (lit "visitors")
  = Raise ValueError
      (Some (lit "Invalid team argument: must be 'home', 'away', or the exact team name. Check your spelling"))
  /\ get_team_players Fixtures.source_no_home (lit "home")
     = Raise AttributeError None.
Proof.
  split.
  - destruct (get_team_players_errors Fixtures.source (lit "visitors"))
      as (H & _).
    apply H. reflexivity.
  - destruct (get_team_players_errors Fixtures.source_no_home (lit "home"))
      as (_ & H & _).
    apply H. reflexivity.
Defined.

(** X8. Every id that [get_team_players] lists can be given back to
    [get_player]: for an id without a single quote, [get_player] returns
    a player with exactly that id. *)
Theorem listed_id_resolves (self : instance) (home away : Element)
    (team : str) (ps : players) (i : str) :
  TracabTf05Xml.find self (lit "HomeTeam") = Ret (Some home) ->
  TracabTf05Xml.find self (lit "AwayTeam") = Ret (Some away) ->
  get_team_players self team = Ret ps ->
  In (Some i) (id ps) ->
  ~ In quote i ->
  exists p team_name,
    get_player self (inl i) = Ret (p, team_name)
    /\ get p (lit "iPlayerId") = Some i.
Proof.
  intros Hhome Haway Hps Hin Hquote.
  assert (Hq : exists q, (In q (children home) \/ In q (children away))
                         /\ tag q = lit "Player"
                         /\ get q (lit "iPlayerId") = Some i).
  { unfold get_team_players in Hps.
    destruct (get_team self team) as [[this_team|]| |] eqn:Hteam;
      cbn [bind node_findall] in Hps; try discriminate.
    rewrite findall_Player in Hps. cbn [bind] in Hps.
    rewrite fold_append_player in Hps. injection Hps as <-.
    cbn [id app] in Hin. apply in_map_iff in Hin as [q [Hid Hq]].
    apply filter_In in Hq as [Hchild Htag]. apply str_eqb_eq in Htag.
    exists q. split; [|now split].
    destruct (get_team_cases self team) as [E | [E | [m E]]];
      rewrite E in Hteam; [left | right | discriminate].
    - rewrite Hhome in Hteam. now injection Hteam as <-.
    - rewrite Haway in Hteam. now injection Hteam as <-. }
  destruct Hq as [q [Hchild [Htag Hid]]].
  rewrite (get_player_resolution_order self home away (inl i) Hhome Haway
             Hquote).
  unfold Resolution.resolve_player. cbn [str_of].
  destruct (Resolution.exact_match home (lit "iPlayerId") i) as [p|] eqn:E1.
  { apply exact_match_Some in E1. exists p. eexists. split; [reflexivity|].
    tauto. }
  destruct (Resolution.exact_match away (lit "iPlayerId") i) as [p|] eqn:E2.
  { apply exact_match_Some in E2. exists p. eexists. split; [reflexivity|].
    tauto. }
  exfalso. destruct Hchild as [Hchild | Hchild].
  - exact (proj1 (exact_match_None _ _ _) E1 q Hchild Htag Hid).
  - exact (proj1 (exact_match_None _ _ _) E2 q Hchild Htag Hid).
Qed.

Lemma listed_id_resolves_witness :
  exists p team_name,
    get_player Fixtures.source (inl (lit "10")) = Ret (p, team_name)
    /\ get p (lit "iPlayerId") = Some (lit "10").
Proof.
  apply (listed_id_resolves Fixtures.source Fixtures.home_team
           Fixtures.away_team (lit "away")
           (mkPlayers [Some (lit "9"); Some (lit "10")]
                      [Some (lit "9"); Some (lit "10")]
                      [Some (lit "77"); Some (lit "Bob STONE")]));
    try reflexivity.
  - right. left. reflexivity.
  - plain_literal.
Defined.

(** ** When the decoder returns *)

Lemma Forall2_decimal (raw : str) (ds : list Z) :
  Forall2 (fun c d => decimal_value c = Some d) raw ds ->
  Forall (fun c => decimal_value c <> None) raw.
Proof.
  induction 1 as [|c d raw ds Hc _ IH]; constructor; [congruence | exact IH].
Qed.

(** X9. The decoder returns a grid exactly for the strings of 280
    characters that are all decimal digits for [int]; for every other
    string it raises a [ValueError]. *)
Theorem decode_returns_iff (raw : str) :
  ((exists grid, __make_heatmap_array (Some raw) = Ret grid)
   <-> (List.length raw = 280
        /\ Forall (fun c => decimal_value c <> None) raw))
  /\ ((forall grid, __make_heatmap_array (Some raw) <> Ret grid)
      -> __make_heatmap_array (Some raw) = Raise ValueError None).
Proof.
  destruct (make_heatmap_array_cases raw) as [[ds [Hall E]] | [E [c [Hin Hc]]]];
    rewrite E.
  - pose proof (Forall2_length Hall) as Hlen.
    destruct (reshape_cases ds __HM_WIDTH __HM_LENGTH) as [[Hds ->] | [Hds ->]].
    + split.
      * split; [|eauto]. intros _. split.
        -- rewrite Hlen. exact Hds.
        -- now apply (Forall2_decimal raw ds).
      * intros H. now destruct (H (np.rows_of __HM_WIDTH __HM_LENGTH ds)).
    + split; [|reflexivity]. split.
      * intros [grid H]. discriminate.
      * intros [Hraw _]. exfalso. apply Hds. rewrite <- Hlen. exact Hraw.
  - split; [|reflexivity]. split.
    + intros [grid H]. discriminate.
    + intros [_ Hall]. rewrite Forall_forall in Hall.
      now destruct (Hall c Hin).
Qed.

(** ** The heatmap of a team *)

Lemma in_keys_dict_get (d : dict) (key : str) :
  In key (keys d) -> exists v, dict_get d key = Some v.
Proof.
  induction d as [|[k v] d IH]; cbn [keys map dict_get fst]; [intros []|].
  intros [<- | H].
  - rewrite str_eqb_refl. eauto.
  - destruct (str_eqb k key); [eauto | now apply IH].
Qed.

Lemma dict_get_in_keys (d : dict) (key v : str) :
  dict_get d key = Some v -> str_in key (keys d) = true.
Proof.
  intros H. apply str_in_In.
  induction d as [|[k w] d IH]; cbn [keys map dict_get fst] in *;
    [discriminate|].
  destruct (str_eqb k key) eqn:E.
  - apply str_eqb_eq in E. now left.
  - right. now apply IH.
Qed.

(** With a valid type and a resolved team element, [team_heatmap] is the
    decoding of the attribute that the translator names. *)
Lemma team_heatmap_valid (self : instance) (team hm_type key : str)
    (add_cbar : bool) (this_team : Element) :
  get_team self team = Ret (Some this_team) ->
  dict_get __team_heatmap_dict hm_type = Some key ->
  team_heatmap self team hm_type add_cbar
  = (hm_array <- __make_heatmap_array (get this_team key) ;;
     Ret (mkParams hm_array (this_team_name self team ++ lit " - " ++ hm_type)
                   None (endnote_text self) add_cbar)).
Proof.
  intros Hteam Hkey. unfold team_heatmap. rewrite Hteam. cbn [bind].
  rewrite (dict_get_in_keys _ _ _ Hkey). cbn [negb].
  unfold getitem. rewrite Hkey. cbn [bind node_get]. reflexivity.
Qed.

(** X10. [team_heatmap] with a valid type on a resolved team returns
    exactly when the attribute of that type is on the team element and is
    280 decimal digits; the array handed to the renderer is then the
    decoding of that attribute, and the title is the team name, a dash
    and the type. An absent attribute is a [TypeError], any other string
    a [ValueError]. *)
Theorem team_heatmap_outcome (self : instance) (team hm_type key : str)
    (add_cbar : bool) (this_team : Element) :
  get_team self team = Ret (Some this_team) ->
  dict_get __team_heatmap_dict hm_type = Some key ->
  (get this_team key = None ->
   team_heatmap self team hm_type add_cbar = Raise TypeError None)
  /\ (forall raw,
        get this_team key = Some raw ->
        (List.length raw = 280
         /\ Forall (fun c => decimal_value c <> None) raw ->
         exists grid,
           __make_heatmap_array (Some raw) = Ret grid
           /\ team_heatmap self team hm_type add_cbar
              = Ret (mkParams grid
                       (this_team_name self team ++ lit " - " ++ hm_type)
                       None (endnote_text self) add_cbar))
        /\ (~ (List.length raw = 280
               /\ Forall (fun c => decimal_value c <> None) raw) ->
            team_heatmap self team hm_type add_cbar = Raise ValueError None)).
Proof.
  intros Hteam Hkey.
  rewrite (team_heatmap_valid self team hm_type key add_cbar this_team
             Hteam Hkey).
  split.
  - intros ->. reflexivity.
  - intros raw ->.
    destruct (make_heatmap_array_cases raw) as [[ds [Hall E]] | [E [c [Hin Hc]]]].
    + pose proof (Forall2_length Hall) as Hlen.
      destruct (reshape_cases ds __HM_WIDTH __HM_LENGTH)
        as [[Hds R] | [Hds R]]; rewrite R in E; rewrite E; cbn [bind].
      * split; [eauto|]. intros H. exfalso. apply H. split.
        -- rewrite Hlen. exact Hds.
        -- now apply (Forall2_decimal raw ds).
      * split; [|reflexivity]. intros [Hraw _]. exfalso. apply Hds.
        rewrite <- Hlen. exact Hraw.
    + rewrite E. cbn [bind]. split; [|reflexivity].
      intros [_ Hall]. rewrite Forall_forall in Hall.
      now destruct (Hall c Hin).
Qed.

Lemma ascii_digits_decimal (raw : str) :
  forallb is_ascii_digit raw = true ->
  Forall (fun c => decimal_value c <> None) raw.
Proof.
  intros H. rewrite forallb_forall in H. apply Forall_forall.
  intros c Hc. rewrite (decimal_value_ascii c (H c Hc)). discriminate.
Qed.

Lemma decode_returns_iff_witness :
  exists grid, __make_heatmap_array (Some Fixtures.cycle_heatmap) = Ret grid.
Proof.
  apply (proj1 (decode_returns_iff Fixtures.cycle_heatmap)).
  split; [reflexivity|]. apply ascii_digits_decimal. reflexivity.
Defined.

Lemma team_heatmap_outcome_witness :
  exists grid,
    __make_heatmap_array (Some Fixtures.cycle_heatmap) = Ret grid
    /\ team_heatmap Fixtures.source (lit "home") (lit "overall") true
       = Ret (mkParams grid (lit "Rovers - overall") None
                (lit "Rovers v. Athletic, 2021-05-18") true).
Proof.
  destruct (team_heatmap_outcome Fixtures.source (lit "home") (lit "overall")
              (lit "sHeatmap") true Fixtures.home_team eq_refl eq_refl)
    as (_ & H).
  destruct (H Fixtures.cycle_heatmap eq_refl) as (Hok & _).
  apply Hok. split; [reflexivity|]. apply ascii_digits_decimal. reflexivity.
Defined.

(** X11. Plotting a team by its role tag or by its exact name is the same
    call: for the home team unless its name is the word away, for the
    away team unless its name is the word home or is also the name of the
    home team. The same element is decoded and the same title is
    printed. *)
Theorem team_heatmap_by_role_or_name (self : instance) (name hm_type : str)
    (add_cbar : bool) :
  (home_team_name self = Some name -> name <> lit "away" ->
   team_heatmap self name hm_type add_cbar
   = team_heatmap self (lit "home") hm_type add_cbar)
  /\ (away_team_name self = Some name -> name <> lit "home" ->
      home_team_name self <> Some name ->
      team_heatmap self name hm_type add_cbar
      = team_heatmap self (lit "away") hm_type add_cbar).
Proof.
  split.
  - intros Hname Haway.
    destruct (list_eq_dec N.eq_dec name (lit "home")) as [-> | Hhome];
      [reflexivity|].
    unfold team_heatmap.
    rewrite (get_team_home_name self name Hhome Haway Hname).
    change (get_team self (lit "home")) with (TracabTf05Xml.find self (lit "HomeTeam")).
    unfold this_team_name.
    rewrite (proj2 (str_eqb_neq name (lit "home")) Hhome).
    rewrite (proj2 (str_eqb_neq name (lit "away")) Haway).
    rewrite Hname. reflexivity.
  - intros Hname Hhome Hother.
    destruct (list_eq_dec N.eq_dec name (lit "away")) as [-> | Haway];
      [reflexivity|].
    unfold team_heatmap.
    rewrite (get_team_away_name self name Hhome Haway Hother Hname).
    change (get_team self (lit "away")) with (TracabTf05Xml.find self (lit "AwayTeam")).
    unfold this_team_name.
    rewrite (proj2 (str_eqb_neq name (lit "home")) Hhome).
    rewrite (proj2 (str_eqb_neq name (lit "away")) Haway).
    rewrite Hname. reflexivity.
Qed.

Lemma team_heatmap_by_role_or_name_witness :
  team_heatmap Fixtures.source (lit "Rovers") (lit "attack") false
  = team_heatmap Fixtures.source (lit "home") (lit "attack") false
  /\ team_heatmap Fixtures.source (lit "Athletic") (lit "attack") false
     = team_heatmap Fixtures.source (lit "away") (lit "attack") false.
Proof.
  destruct (team_heatmap_by_role_or_name Fixtures.source (lit "Rovers")
              (lit "attack") false) as (H1 & _).
  destruct (team_heatmap_by_role_or_name Fixtures.source (lit "Athletic")
              (lit "attack") false) as (_ & H2).
  split.
  - apply H1; [reflexivity | discriminate].
  - apply H2; [reflexivity | discriminate | discriminate].
Defined.

(** ** Possession *)

Lemma float_of_digits (raw : str) :
  raw <> [] -> forallb is_ascii_digit raw = true ->
  float_of (Some raw) = Ret (float_of_Z (digits_value raw)).
Proof.
  intros Hne Hd. unfold float_of. destruct raw as [|c raw]; [contradiction|].
  now rewrite Hd.
Qed.

(** X12. [get_team_possession] on a resolved team: without a
    PossessionData child it is an [AttributeError]; without the average
    time, or with it and without the percentage, a [TypeError]; with both
    as decimal digits it returns the time divided by 1000 and the
    percentage as it is. *)
Theorem get_team_possession_outcome (self : instance) (team : str)
    (this_team : Element) :
  get_team self team = Ret (Some this_team) ->
  (Element.find this_team (lit "PossessionData") = Ret None ->
   get_team_possession self team = Raise AttributeError None)
  /\ (forall stats,
        Element.find this_team (lit "PossessionData") = Ret (Some stats) ->
        (get stats (lit "iAvgTimePerPossession") = None ->
         get_team_possession self team = Raise TypeError None)
        /\ (forall avg,
              get stats (lit "iAvgTimePerPossession") = Some avg ->
              avg <> [] -> forallb is_ascii_digit avg = true ->
              (get stats (lit "fPossessionPercentage") = None ->
               get_team_possession self team = Raise TypeError None)
              /\ (forall pct,
                    get stats (lit "fPossessionPercentage") = Some pct ->
                    pct <> [] -> forallb is_ascii_digit pct = true ->
                    get_team_possession self team
                    = Ret (mkPossession
                             (truediv (float_of_Z (digits_value avg)) 1000)
                             (float_of_Z (digits_value pct)))))).
Proof.
  intros Hteam. unfold get_team_possession. rewrite Hteam.
  cbn [bind node_find]. split.
  - intros ->. reflexivity.
  - intros stats ->. cbn [bind node_get]. split.
    + intros ->. reflexivity.
    + intros avg -> Hne Hd. rewrite (float_of_digits avg Hne Hd).
      cbn [bind]. split.
      * intros ->. reflexivity.
      * intros pct -> Hne' Hd'. now rewrite (float_of_digits pct Hne' Hd').
Qed.

Lemma get_team_possession_outcome_witness :
  get_team_possession Fixtures.source (lit "home")
  = Ret (mkPossession (float_of_Z 12) (float_of_Z 55)).
Proof.
  destruct (get_team_possession_outcome Fixtures.source (lit "home")
              Fixtures.home_team eq_refl) as (_ & H).
  destruct (H Fixtures.possession_elem eq_refl) as (_ & H').
  destruct (H' (lit "12000") eq_refl ltac:(discriminate) eq_refl) as (_ & H'').
  exact (H'' (lit "55") eq_refl ltac:(discriminate) eq_refl).
Defined.

Lemma possession_string_valid (possession : str) :
  In possession [lit "in"; lit "out"] ->
  possession_string possession = Ret (Resolution.possession_words possession).
Proof. intros [<- | [<- | []]]; reflexivity. Qed.

(** X13. [team_possession_heatmap] once the heatmap is decoded: for the
    two halves it returns without reading the possession statistics; for
    the type overall it also calls [get_team_possession], whose result is
    printed under the title and whose exception, if any, is the outcome
    of the call. *)
Theorem team_possession_heatmap_outcome (self : instance)
    (team possession hm_type key : str) (add_cbar : bool)
    (this_team stats : Element) (data : option Element) (grid : np.array) :
  get_team self team = Ret (Some this_team) ->
  Element.find this_team (lit "PossessionData") = Ret (Some stats) ->
  In possession [lit "in"; lit "out"] ->
  possession_data (Some stats) possession = Ret data ->
  dict_get __possession_heatmap_dict hm_type = Some key ->
  (data_attr <- node_get data key ;; __make_heatmap_array data_attr) = Ret grid ->
  let title_text :=
    this_team_name self team ++ lit " - " ++ Resolution.possession_words possession
      ++ lit " - " ++ hm_type in
  (hm_type <> lit "overall" ->
   team_possession_heatmap self team possession hm_type add_cbar
   = Ret (mkParams grid title_text None (endnote_text self) add_cbar))
  /\ (hm_type = lit "overall" ->
      team_possession_heatmap self team possession hm_type add_cbar
      = (possession_stats <- get_team_possession self team ;;
         Ret (mkParams grid title_text (Some possession_stats)
                       (endnote_text self) add_cbar))).
Proof.
  intros Hteam Hstats Hposs Hdata Hkey Hgrid title_text.
  assert (E : team_possession_heatmap self team possession hm_type add_cbar
              = (subtitle <-
                   (if str_eqb hm_type (lit "overall") then
                      possession_stats <- get_team_possession self team ;;
                      Ret (Some possession_stats)
                    else Ret None) ;;
                 Ret (mkParams grid title_text subtitle (endnote_text self)
                               add_cbar))).
  { unfold team_possession_heatmap. rewrite Hteam. cbn [bind node_find].
    rewrite Hstats. cbn [bind]. rewrite Hdata. cbn [bind].
    rewrite (dict_get_in_keys _ _ _ Hkey). cbn [negb].
    unfold getitem. rewrite Hkey. cbn [bind].
    destruct (node_get data key) as [attr| |]; cbn [bind] in Hgrid;
      try discriminate.
    cbn [bind]. rewrite Hgrid. cbn [bind].
    rewrite (possession_string_valid possession Hposs). reflexivity. }
  rewrite E. split.
  - intros Hhalf. rewrite (proj2 (str_eqb_neq hm_type (lit "overall")) Hhalf).
    reflexivity.
  - intros ->. cbn [str_eqb]. rewrite str_eqb_refl.
    destruct (get_team_possession self team); reflexivity.
Qed.

Lemma team_possession_heatmap_outcome_witness :
  team_possession_heatmap Fixtures.source (lit "home") (lit "in")
    (lit "first-half") false
  = Ret (mkParams
           (np.rows_of 14 20
              (map (fun c => (Z.of_N c - 48)%Z) Fixtures.cycle_heatmap))
           (lit "Rovers - in possession - first-half") None
           (lit "Rovers v. Athletic, 2021-05-18") false)
  /\ team_possession_heatmap Fixtures.source (lit "home") (lit "out")
       (lit "overall") false
     = (possession_stats <- get_team_possession Fixtures.source (lit "home") ;;
        Ret (mkParams
               (np.rows_of 14 20
                  (map (fun c => (Z.of_N c - 48)%Z) Fixtures.cycle_heatmap))
               (lit "Rovers - out of possession - overall")
               (Some possession_stats)
               (lit "Rovers v. Athletic, 2021-05-18") false)).
Proof.
  split.
  - apply (team_possession_heatmap_outcome Fixtures.source (lit "home")
             (lit "in") (lit "first-half") (lit "sFirstHalfHeatmap") false
             Fixtures.home_team Fixtures.possession_elem
             (List.find (fun e => str_eqb (tag e) (lit "OwnTeamPossession"))
                (children Fixtures.possession_elem)));
      try reflexivity.
    + left. reflexivity.
    + discriminate.
  - apply (team_possession_heatmap_outcome Fixtures.source (lit "home")
             (lit "out") (lit "overall") (lit "sHeatmap") false
             Fixtures.home_team Fixtures.possession_elem
             (List.find (fun e => str_eqb (tag e) (lit "OpponentPossession"))
                (children Fixtures.possession_elem)));
      try reflexivity.
    right. left. reflexivity.
Defined.

Lemma possession_data_invalid (stats : option Element) (possession : str) :
  ~ In possession [lit "in"; lit "out"] ->
  possession_data stats possession = invalid_possession possession.
Proof.
  intros H. unfold possession_data.
  destruct (str_eqb possession (lit "in")) eqn:E1.
  { apply str_eqb_eq in E1. exfalso. apply H. left. now symmetry. }
  destruct (str_eqb possession (lit "out")) eqn:E2.
  { apply str_eqb_eq in E2. exfalso. apply H. right. left. now symmetry. }
  reflexivity.
Qed.

(** X14. The possession is checked before the heatmap type and before
    the possession data is read: on a resolved team or player, a
    possession other than in and out is the [ValueError] of the
    possession, whatever the heatmap type is and whether or not the
    element has possession data. *)
Theorem invalid_possession_rejected_first (self : instance)
    (possession hm_type : str) (add_cbar : bool) :
  ~ In possession [lit "in"; lit "out"] ->
  (forall team this_team,
     get_team self team = Ret (Some this_team) ->
     team_possession_heatmap self team possession hm_type add_cbar
     = Raise ValueError
         (Some (lit "Inavlid possession type: must be one of ('in', 'out'), but provided "
                ++ possession)))
  /\ (forall player this_player player_team,
        get_player self player = Ret (this_player, player_team) ->
        player_possession_heatmap self player possession hm_type add_cbar
        = Raise ValueError
            (Some (lit "Inavlid possession type: must be one of ('in', 'out'), but provided "
                   ++ possession))).
Proof.
  intros Hposs. split.
  - intros team this_team Hteam. unfold team_possession_heatmap.
    rewrite Hteam. cbn [bind node_find].
    destruct (find_plain_tag_cases this_team (lit "PossessionData") eq_refl)
      as [stats ->].
    cbn [bind]. now rewrite (possession_data_invalid stats possession Hposs).
  - intros player this_player player_team Hplayer.
    unfold player_possession_heatmap. rewrite Hplayer. cbn [bind].
    destruct (find_plain_tag_cases this_player (lit "PossessionData") eq_refl)
      as [stats ->].
    cbn [bind]. now rewrite (possession_data_invalid stats possession Hposs).
Qed.

Lemma invalid_possession_rejected_first_witness :
  team_possession_heatmap Fixtures.source (lit "away") (lit "both")
    (lit "unknown") false
  = Raise ValueError
      (Some (lit "Inavlid possession type: must be one of ('in', 'out'), but provided both"))
  /\ player_possession_heatmap Fixtures.source (inr 77%Z) (lit "both")
       (lit "overall") false
     = Raise ValueError
         (Some (lit "Inavlid possession type: must be one of ('in', 'out'), but provided both")).
Proof.
  destruct (invalid_possession_rejected_first Fixtures.source (lit "both")
              (lit "unknown") false ltac:(not_in_literals)) as (H1 & _).
  destruct (invalid_possession_rejected_first Fixtures.source (lit "both")
              (lit "overall") false ltac:(not_in_literals)) as (_ & H2).
  split.
  - exact (H1 (lit "away") Fixtures.away_team eq_refl).
  - exact (H2 (inr 77%Z) Fixtures.home_77 (Some (lit "Rovers")) eq_refl).
Defined.

(** ** [parse] and the state of the object *)



(** X16. A [parse] that raises is not undone. Without a TracabDocument
    element the new tree is installed and all the match data is the old
    one. With it but without iTotalGameTime, the tree, the match id and
    the names and ids of the two teams are the new ones, and the
    duration and the nine fields after it are still the old ones. *)
Theorem parse_failure_keeps_the_rest (self : instance) (document : Element) :
  (Element.find document (lit "TracabDocument") = Ret None ->
   fst (parse self document)
   = mkInstance (tf05_fname self) (Some document) (match_id self)
       (home_team_name self) (home_team_id self) (away_team_name self)
       (away_team_id self) (match_duration self) (arena_name self)
       (arena_id self) (competition_name self) (competition_id self)
       (match_date self) (season self) (season_id self) (sport_id self)
       (sport_name self))
  /\ (forall match_info,
        Element.find document (lit "TracabDocument") = Ret (Some match_info) ->
        get match_info (lit "iTotalGameTime") = None ->
        fst (parse self document)
        = mkInstance (tf05_fname self) (Some document)
            (get match_info (lit "iMatchId"))
            (get match_info (lit "sHomeTeamName"))
            (get match_info (lit "iHomeTeamId"))
            (get match_info (lit "sAwayTeamName"))
            (get match_info (lit "iAwayTeamId"))
            (match_duration self) (arena_name self) (arena_id self)
            (competition_name self) (competition_id self) (match_date self)
            (season self) (season_id self) (sport_id self) (sport_name self)).
Proof.
  split.
  - intros H. unfold parse. rewrite find_TracabDocument, H. reflexivity.
  - intros match_info H Hnone. unfold parse.
    rewrite find_TracabDocument, H. cbv iota beta. rewrite Hnone. reflexivity.
Qed.

Lemma parse_failure_keeps_the_rest_witness :
  snd (parse Fixtures.source Fixtures.document_no_time) = Raise TypeError None
  /\ home_team_name (fst (parse Fixtures.source Fixtures.document_no_time))
     = Some (lit "United")
  /\ arena_name (fst (parse Fixtures.source Fixtures.document_no_time))
     = arena_name Fixtures.source
  /\ match_duration (fst (parse Fixtures.source Fixtures.document_no_time))
     = match_duration Fixtures.source
  /\ home_team_name (fst (parse Fixtures.source Fixtures.document_no_match_data))
     = Some (lit "Rovers")
  /\ _root (fst (parse Fixtures.source Fixtures.document_no_match_data))
     = Some Fixtures.document_no_match_data.
Proof.
  destruct (parse_failure_keeps_the_rest Fixtures.source
              Fixtures.document_no_time) as (_ & H).
  destruct (parse_failure_keeps_the_rest Fixtures.source
              Fixtures.document_no_match_data) as (H' & _).
  specialize (H _ eq_refl eq_refl). specialize (H' eq_refl).
  split; [reflexivity|].
  rewrite H, H'. repeat split.
Defined.

(** ** The keyword arguments of the pitch *)

Lemma has_key_kwarg (d : kwargs) (key : str) :
  has_key d key = true <-> exists v, kwarg d key = Some v.
Proof.
  induction d as [|[k v] d IH]; cbn [has_key existsb kwarg fst].
  - split; [discriminate | intros [v H]; discriminate].
  - destruct (str_eqb k key); cbn [orb]; [split; eauto|].
    exact IH.
Qed.

Lemma kwarg_app (d : kwargs) (k key : str) (v : value) :
  kwarg (d ++ [(k, v)]) key
  = match kwarg d key with
    | Some x => Some x
    | None => if str_eqb k key then Some v else None
    end.
Proof.
  induction d as [|[k' v'] d IH]; cbn [app kwarg]; [reflexivity|].
  destruct (str_eqb k' key); [reflexivity | exact IH].
Qed.

(** Filling keeps what is there and sets what is missing. *)
Lemma kwarg_fill (d : kwargs) (k key : str) (v : value) :
  kwarg (fill d k v) key
  = match kwarg d key with
    | Some x => Some x
    | None => if str_eqb k key then Some v else None
    end.
Proof.
  unfold fill. destruct (has_key d k) eqn:H.
  - apply has_key_kwarg in H as [x Hx].
    destruct (kwarg d key) as [y|] eqn:Hy; [reflexivity|].
    destruct (str_eqb k key) eqn:E; [|reflexivity].
    apply str_eqb_eq in E. subst key. congruence.
  - apply kwarg_app.
Qed.

Lemma fill_present (d : kwargs) (k : str) (v : value) :
  has_key d k = true -> fill d k v = d.
Proof. intros H. unfold fill. now rewrite H. Qed.

Lemma has_key_fill (d : kwargs) (k key : str) (v : value) :
  has_key (fill d k v) key = has_key d key || str_eqb k key.
Proof.
  unfold fill. destruct (has_key d k) eqn:H.
  - destruct (has_key d key) eqn:Hk; [reflexivity|]. cbn [orb].
    destruct (str_eqb k key) eqn:E; [|reflexivity].
    apply str_eqb_eq in E. subst key. congruence.
  - unfold has_key. rewrite existsb_app. cbn [existsb fst].
    now rewrite orb_false_r.
Qed.

Lemma complete_fixpoint (s s' : settings) (d : kwargs) :
  complete s' (complete s d) = complete s d.
Proof.
  unfold complete at 1.
  assert (H1 : has_key (complete s d) (lit "pitch_type") = true).
  { unfold complete. rewrite !has_key_fill. cbn [str_eqb].
    rewrite str_eqb_refl. now rewrite !orb_true_r. }
  assert (H2 : has_key (complete s d) (lit "pitch_width") = true).
  { unfold complete. rewrite !has_key_fill.
    rewrite str_eqb_refl. now rewrite !orb_true_r. }
  assert (H3 : has_key (complete s d) (lit "pitch_length") = true).
  { unfold complete. rewrite !has_key_fill.
    rewrite str_eqb_refl. now rewrite !orb_true_r. }
  rewrite (fill_present _ _ _ H1), (fill_present _ _ _ H2).
  now rewrite (fill_present _ _ _ H3).
Qed.

(** X17. The defaults go stale. After one plot with the default
    arguments, every later plot with the default arguments passes the
    same keyword arguments to the pitch, whatever has been assigned to
    the attributes pitch_length, pitch_width and pitch_type in between:
    the first plot has written their values into the dictionary of the
    defaults. *)
Theorem default_pitch_arguments_stale (s : settings)
    (length' width' type' : value) :
  let after := fst (fst (pitch_arguments s None)) in
  let changed :=
    set_pitch_type (set_pitch_width (set_pitch_length after length') width')
                   type' in
  snd (pitch_arguments changed None) = snd (pitch_arguments s None)
  /\ default_pitch_kwargs after = snd (pitch_arguments s None)
  /\ kwarg (snd (pitch_arguments changed None)) (lit "pitch_length")
     = match kwarg (__default_pitch_kwargs s) (lit "pitch_length") with
       | Some v => Some v
       | None => Some (pitch_length s)
       end.
Proof.
  cbn [pitch_arguments fst snd set_pitch_type set_pitch_width set_pitch_length
       __default_pitch_kwargs default_pitch_kwargs pitch_length pitch_width
       pitch_type].
  rewrite complete_fixpoint. split; [reflexivity|]. split; [reflexivity|].
  unfold complete. rewrite !kwarg_fill.
  destruct (kwarg (__default_pitch_kwargs s) (lit "pitch_length"));
    reflexivity.
Qed.



(** ** The heatmap of a player *)



(** ** Before [parse] *)

(** X20. On the object that [__init__] returns, nothing can be read
    before [parse]: a role tag is an [AttributeError] (there is no tree),
    any other team selector the [ValueError] of an invalid team (there
    are no team names), every player lookup an [AttributeError], and
    every accessor and plotting method built on them raises. *)
Theorem nothing_before_parse (fname : str) (team possession hm_type : str)
    (player : str + Z) (add_cbar : bool) :
  let self := __init__ fname in
  (In team [lit "home"; lit "away"] ->
   get_team self team = Raise AttributeError None)
  /\ (~ In team [lit "home"; lit "away"] ->
      get_team self team
      = Raise ValueError
          (Some (lit "Invalid team argument: must be 'home', 'away', or the exact team name. Check your spelling")))
  /\ get_player self player = Raise AttributeError None
  /\ raises (get_team_players self team)
  /\ raises (get_team_possession self team)
  /\ raises (team_heatmap self team hm_type add_cbar)
  /\ raises (team_possession_heatmap self team possession hm_type add_cbar)
  /\ raises (player_heatmap self player add_cbar)
  /\ raises (player_possession_heatmap self player possession hm_type add_cbar).
Proof.
  intros self.
  assert (Hteam : raises (get_team self team)).
  { unfold get_team.
    destruct (str_in team [lit "home"; lit "away"]) eqn:R.
    - apply str_in_In in R. destruct R as [<- | [<- | []]]; apply raises_Raise.
    - cbn. apply raises_Raise. }
  assert (Hplayer : get_player self player = Raise AttributeError None)
    by reflexivity.
  assert (Hbind : forall (B : Type) (k : option Element -> outcome B),
             raises (bind (get_team self team) k)).
  { intros B k. destruct Hteam as (e & m & ->). apply raises_Raise. }
  split; [|split; [|split]].
  - intros [<- | [<- | []]]; reflexivity.
  - intros H. unfold get_team.
    destruct (str_in team [lit "home"; lit "away"]) eqn:R;
      [apply str_in_In in R; contradiction | reflexivity].
  - exact Hplayer.
  - repeat split; try apply Hbind.
    + unfold player_heatmap. rewrite Hplayer. apply raises_Raise.
    + unfold player_possession_heatmap. rewrite Hplayer. apply raises_Raise.
Qed.
